(** * dbx-table-read-form-app-maker-checker: the two Streamlit pages

    A shallow embedding of [views/csv_upload_to_table.py] (CSV bulk loader)
    and [views/merchant_business_size_editor.py] (maker-checker review),
    followed by the properties of their SQL-building functions and of
    their form handlers.

    Conventions of the embedding
    - Python values that travel through the pages are [PyVal]s.
    - A pandas dtype is carried by its name, the string [str(dtype)]
      returns; [dtype == 'int64'] is the comparison of that name.
    - [dict]s whose iteration order reaches the SQL text are association
      lists in insertion order; the bound-parameter dict of
      [cursor.execute] is a [gmap].
    - The warehouse is external: the pages talk to it through a [Driver]
      ([get_connection], [cursor.execute]); every call is recorded in the
      trace of the [World], next to what the page shows to the user.
    - The icon glyph that opens each user message is left out of the
      message strings. *)

From stdpp Require Import gmap strings pretty list.
From Stdlib Require Import Ascii ZArith Lia.

Local Open Scope Z_scope.
Local Open Scope stdpp_scope.

(* ===================================================================== *)
(** * Python strings and values *)
(* ===================================================================== *)

Module Py.

(** [sub in s] on strings. *)
Fixpoint str_in (sub s : string) : bool :=
  String.prefix sub s ||
  match s with
  | EmptyString => false
  | String _ s' => str_in sub s'
  end.

(** [s.replace("'", "''")]: the pattern is one character, so every
    occurrence is replaced independently, left to right. *)
Fixpoint replace_quote (s : string) : string :=
  match s with
  | EmptyString => EmptyString
  | String c s' =>
      if Ascii.eqb c "'"%char
      then String "'"%char (String "'"%char (replace_quote s'))
      else String c (replace_quote s')
  end.

(** [sep.join(parts)]. *)
Definition join (sep : string) (parts : list string) : string :=
  String.concat sep parts.

(** The scalars found in a dataframe cell, a form field or a fetched
    row.  A finite float is carried by its [repr]; [PNaN] is the float
    not-a-number pandas uses for a missing cell. *)
Inductive PyVal : Type :=
| PNone
| PBool (b : bool)
| PInt (z : Z)
| PFloat (repr : string)
| PNaN
| PStr (s : string).

Global Instance PyVal_eq_dec : EqDecision PyVal.
Proof. solve_decision. Defined.

(** [str(v)], which is also what an f-string [{v}] interpolates. *)
Definition str (v : PyVal) : string :=
  match v with
  | PNone => "None"
  | PBool true => "True"
  | PBool false => "False"
  | PInt z => pretty z
  | PFloat r => r
  | PNaN => "nan"
  | PStr s => s
  end.

(** Truth value of a scalar ([if v], [v and ...], [not v]). *)
Definition truthy (v : PyVal) : bool :=
  match v with
  | PNone => false
  | PBool b => b
  | PInt z => negb (z =? 0)
  | PFloat r => negb (String.eqb r "0.0" || String.eqb r "-0.0")
  | PNaN => true
  | PStr s => negb (String.eqb s "")
  end.

(** [pd.isna(v)] on a scalar. *)
Definition isna (v : PyVal) : bool :=
  match v with PNone | PNaN => true | _ => false end.

(** [v is None or v == ""]. *)
Definition none_or_empty (v : PyVal) : bool :=
  match v with
  | PNone => true
  | PStr s => String.eqb s ""
  | _ => false
  end.

(** [s] occurs in [t] as a contiguous piece. *)
Definition occurs_in (s t : string) : Prop :=
  exists pre post, t = pre +:+ s +:+ post.

End Py.
Export Py.

(* ===================================================================== *)
(** * Type inference (csv_upload_to_table.py) *)
(* ===================================================================== *)

Definition infer_sql_type (dtype : string) : string :=
  if String.eqb dtype "object" then "STRING"
  else if String.eqb dtype "int64" then "BIGINT"
  else if String.eqb dtype "float64" then "DOUBLE"
  else if String.eqb dtype "bool" then "BOOLEAN"
  else if str_in "datetime" dtype then "TIMESTAMP"
  else "STRING".

Definition sql_type_names : list string :=
  ["STRING"; "BIGINT"; "DOUBLE"; "BOOLEAN"; "TIMESTAMP"].

(* ===================================================================== *)
(** * Scripts: what a page run does to the warehouse and to the screen *)
(* ===================================================================== *)

(** A Python [Exception], carried by [str(e)]. *)
Inductive exn : Type := Exception (msg : string).

Definition exn_str (e : exn) : string := let 'Exception msg := e in msg.

(** The named bindings handed to [cursor.execute(operation, parameters)]. *)
Abbreviation Params := (gmap string PyVal).

Inductive Event : Type :=
| Execute (operation : string) (parameters : option Params)
| StError (body : string)
| StSuccess (body : string)
| StInfo (body : string)
| SetTableDataNone.

(** The external SQL warehouse as the pages reach it.  [get_connection]
    may raise; [cursor_execute] (opening the cursor included) either
    raises or moves the warehouse to its next state. *)
Record Driver (W : Type) : Type := {
  get_connection : W -> exn + unit;
  cursor_execute : string -> option Params -> W -> exn + W
}.
Arguments get_connection {W}.
Arguments cursor_execute {W}.

Record World (W : Type) : Type := {
  warehouse : W;
  trace : list Event
}.
Arguments warehouse {W}.
Arguments trace {W}.

(** How a run of a block ends: it falls through with a value, an
    [Exception] propagates, or [st.rerun()] stops the script (a
    script-control signal that [except Exception] does not catch). *)
Inductive Outcome (A : Type) : Type :=
| Returns (a : A)
| Raises (e : exn)
| Reruns.
Arguments Returns {A}.
Arguments Raises {A}.
Arguments Reruns {A}.

Definition Script (W A : Type) : Type := World W -> Outcome A * World W.

Definition emit {W} (ev : Event) : Script W unit :=
  fun w => (Returns tt, {| warehouse := warehouse w; trace := trace w ++ [ev] |}).

Definition raise {W A} (e : exn) : Script W A := fun w => (Raises e, w).

Global Instance script_ret {W} : MRet (Script W) :=
  fun A a w => (Returns a, w).

Global Instance script_bind {W} : MBind (Script W) :=
  fun A B k m w =>
    match m w with
    | (Returns a, w') => k a w'
    | (Raises e, w') => (Raises e, w')
    | (Reruns, w') => (Reruns, w')
    end.

(** [try: body  except Exception as e: handler(e)]. *)
Definition try_except {W A} (body : Script W A) (handler : exn -> Script W A)
  : Script W A :=
  fun w =>
    match body w with
    | (Raises e, w') => handler e w'
    | r => r
    end.

Definition st_error {W} (body : string) : Script W unit := emit (StError body).
Definition st_success {W} (body : string) : Script W unit := emit (StSuccess body).
Definition st_info {W} (body : string) : Script W unit := emit (StInfo body).
Definition st_rerun {W} : Script W unit := fun w => (Reruns, w).

(** The statements a trace sent to the warehouse, in order. *)
Definition issued (tr : list Event) : list (string * option Params) :=
  omap (fun ev => match ev with
                  | Execute op ps => Some (op, ps)
                  | _ => None
                  end) tr.

Section Warehouse.
Context {W : Type} (drv : Driver W).

Definition connect : Script W unit :=
  fun w =>
    match get_connection drv (warehouse w) with
    | inl e => (Raises e, w)
    | inr _ => (Returns tt, w)
    end.

(** [with conn.cursor() as cursor: cursor.execute(operation, parameters)].
    The attempt is recorded whether or not the warehouse accepts it; a
    statement that raises leaves the warehouse as it was. *)
Definition execute (operation : string) (parameters : option Params)
  : Script W unit :=
  fun w =>
    let tr := trace w ++ [Execute operation parameters] in
    match cursor_execute drv operation parameters (warehouse w) with
    | inl e => (Raises e, {| warehouse := warehouse w; trace := tr |})
    | inr wh' => (Returns tt, {| warehouse := wh'; trace := tr |})
    end.

End Warehouse.

(** Two concrete warehouses to run the pages against: one that accepts
    every statement and keeps the texts it received, one that cannot be
    reached. *)
Definition recording : Driver (list string) := {|
  get_connection := fun _ => inr tt;
  cursor_execute := fun op _ wh => inr (wh ++ [op])
|}.

Definition unreachable : Driver unit := {|
  get_connection := fun _ => inl (Exception "connection refused");
  cursor_execute := fun _ _ _ => inl (Exception "connection refused")
|}.

Definition fresh {W} (wh : W) : World W := {| warehouse := wh; trace := [] |}.

(* ===================================================================== *)
(** * Record updater (merchant_business_size_editor.py) *)
(* ===================================================================== *)

(** One pass of the loop body of [update_record]. *)
Definition set_clause_of (col : string) (val : PyVal) : string :=
  if none_or_empty val then col +:+ " = NULL"
  else match val with
       | PStr s => col +:+ " = '" +:+ replace_quote s +:+ "'"
       | _ => col +:+ " = " +:+ str val
       end.

Definition set_clauses (record_data : list (string * PyVal)) : list string :=
  map (fun '(col, val) => set_clause_of col val) record_data.

Definition update_query (table_name : string) (record_data : list (string * PyVal))
    (where_clause : string) : string :=
  "UPDATE " +:+ table_name +:+ " SET " +:+ join ", " (set_clauses record_data)
    +:+ " WHERE " +:+ where_clause.

Definition update_record {W} (drv : Driver W) (table_name : string)
    (record_data : list (string * PyVal)) (where_clause : string) : Script W unit :=
  execute drv (update_query table_name record_data where_clause) None.


(* ===================================================================== *)
(** * pandas tables *)
(* ===================================================================== *)

(** A row read as a [Series]: labels with their cells, in column order. *)
Abbreviation Series := (list (string * PyVal)).

(** [series[label]]; [None] stands for the [KeyError]. *)
Fixpoint series_get (label : string) (s : Series) : option PyVal :=
  match s with
  | [] => None
  | (l, v) :: s' => if String.eqb l label then Some v else series_get label s'
  end.

(** A [DataFrame]: the columns with their dtype names ([df.dtypes]) and
    the rows ([df.itertuples(index=False, name=None)]). *)
Record DataFrame : Type := {
  df_dtypes : list (string * string);
  df_rows : list (list PyVal)
}.

Definition df_columns (df : DataFrame) : list string := map fst (df_dtypes df).

(** [df.iloc[i]]; [None] stands for the [IndexError]. *)
Definition df_iloc (df : DataFrame) (i : nat) : option Series :=
  zip (df_columns df) <$> df_rows df !! i.

(** [df[df[label] == value]] for a string [value]; [None] stands for the
    [KeyError] of a missing column. *)
Definition df_where_eq (df : DataFrame) (label value : string) : option DataFrame :=
  if bool_decide (label ∈ df_columns df) then
    Some {| df_dtypes := df_dtypes df;
            df_rows := filter (fun row =>
                         series_get label (zip (df_columns df) row) = Some (PStr value))
                         (df_rows df) |}
  else None.

(* ===================================================================== *)
(** * Maker-checker page (merchant_business_size_editor.py) *)
(* ===================================================================== *)

Definition BUSINESS_SIZE_OPTIONS : list string := [""; "MICRO"; "SMALL"; "MEDIUM"; "LARGE"].
Definition GENDER_OPTIONS : list string := [""; "MALE"; "FEMALE"].

Definition STATUS_PENDING : string := "PENDING".
Definition STATUS_APPROVED : string := "APPROVED".
Definition STATUS_REJECTED : string := "REJECTED".

(** What a run of the page has at hand when a form is submitted:
    [TABLE_NAME], [st.session_state.table_schema] (column to type, in
    DESCRIBE order), the resolved [current_user], and the string
    [get_manila_timestamp()] returns at that moment. *)
Record Page : Type := {
  TABLE_NAME : string;
  table_schema : list (string * string);
  current_user : string;
  manila_timestamp : string
}.

(** The WHERE predicate on the first schema column. *)
Definition where_clause_of (first_col : string) (first_val : PyVal) : string :=
  match first_val with
  | PStr s => first_col +:+ " = '" +:+ replace_quote s +:+ "'"
  | _ => first_col +:+ " = " +:+ str first_val
  end.

(** The opening of each of the three [try] blocks: connect, take the
    first schema column, read its cell in the selected record, build the
    WHERE predicate. *)
Definition target_where_clause {W} (drv : Driver W) (pg : Page)
    (selected_record : Series) : Script W string :=
  connect drv;;
  match map fst (table_schema pg) with
  | [] => raise (Exception "list index out of range")
  | first_col :: _ =>
      match series_get first_col selected_record with
      | None => raise (Exception ("'" +:+ first_col +:+ "'"))
      | Some first_val => mret (where_clause_of first_col first_val)
      end
  end.

Definition report_error {W} (e : exn) : Script W unit :=
  st_error ("Error: " +:+ exn_str e).

Definition maker_update_data (pg : Page) (size_value gender_value : string)
  : list (string * PyVal) :=
  [ ("business_reviewed_size_pending", PStr size_value);
    ("business_reviewed_gender_pending", PStr gender_value);
    ("review_status", PStr STATUS_PENDING);
    ("reviewed_by_maker", PStr (current_user pg));
    ("reviewed_date_maker", PStr (manila_timestamp pg)) ].

(** The body of [with st.form("maker_form")] after the two select boxes
    returned [size_value] and [gender_value]. *)
Definition maker_form {W} (drv : Driver W) (pg : Page) (selected_record : Series)
    (size_value gender_value : string) (submit_btn : bool) : Script W unit :=
  if submit_btn then
    if negb (truthy (PStr size_value)) || negb (truthy (PStr gender_value)) then
      st_error "Please fill in both business size and gender"
    else
      try_except
        (where_clause ← target_where_clause drv pg selected_record;
         update_record drv (TABLE_NAME pg)
           (maker_update_data pg size_value gender_value) where_clause;;
         st_success "Submitted for checker approval!";;
         emit SetTableDataNone;;
         st_rerun)
        report_error
  else mret tt.

Definition approve_update_data (pg : Page)
    (edited_size edited_gender checker_comments : string) : list (string * PyVal) :=
  [ ("business_reviewed_size", PStr edited_size);
    ("business_reviewed_gender", PStr edited_gender);
    ("review_status", PStr STATUS_APPROVED);
    ("reviewed_by_checker", PStr (current_user pg));
    ("reviewed_date_checker", PStr (manila_timestamp pg));
    ("checker_comments",
       PStr (if truthy (PStr checker_comments) then checker_comments else "")) ].

Definition reject_update_data (pg : Page) (checker_comments : string)
  : list (string * PyVal) :=
  [ ("review_status", PStr STATUS_REJECTED);
    ("reviewed_by_checker", PStr (current_user pg));
    ("reviewed_date_checker", PStr (manila_timestamp pg));
    ("checker_comments", PStr checker_comments) ].

Definition approve_handler {W} (drv : Driver W) (pg : Page) (selected_record : Series)
    (edited_size edited_gender checker_comments : string) : Script W unit :=
  try_except
    (where_clause ← target_where_clause drv pg selected_record;
     update_record drv (TABLE_NAME pg)
       (approve_update_data pg edited_size edited_gender checker_comments)
       where_clause;;
     st_success "Review APPROVED!";;
     emit SetTableDataNone;;
     st_rerun)
    report_error.

Definition reject_handler {W} (drv : Driver W) (pg : Page) (selected_record : Series)
    (checker_comments : string) : Script W unit :=
  if negb (truthy (PStr checker_comments)) then
    st_error "Please provide comments when rejecting"
  else
    try_except
      (where_clause ← target_where_clause drv pg selected_record;
       update_record drv (TABLE_NAME pg)
         (reject_update_data pg checker_comments) where_clause;;
       st_success "Review REJECTED!";;
       emit SetTableDataNone;;
       st_rerun)
      report_error.

(** The body of [with st.form("checker_form")]: [if approve_btn: ...]
    followed by [if reject_btn: ...]. *)
Definition checker_form {W} (drv : Driver W) (pg : Page) (selected_record : Series)
    (edited_size edited_gender checker_comments : string)
    (approve_btn reject_btn : bool) : Script W unit :=
  (if approve_btn
   then approve_handler drv pg selected_record edited_size edited_gender checker_comments
   else mret tt);;
  (if reject_btn
   then reject_handler drv pg selected_record checker_comments
   else mret tt).

(** The "Pending Reviews" tab on a run where the refresh button is not
    pressed: filter the cached [table_data] on PENDING, let the checker
    pick entry [selected_option] of the select box (0 is the placeholder),
    then the form.  The read-only display of the picked record (the
    expander and the maker's submission) is left out. *)
Definition checker_pending_tab {W} (drv : Driver W) (pg : Page) (table_data : DataFrame)
    (selected_option : nat) (edited_size edited_gender checker_comments : string)
    (approve_btn reject_btn : bool) : Script W unit :=
  match df_where_eq table_data "review_status" STATUS_PENDING with
  | None => raise (Exception "'review_status'")
  | Some pending_reviews =>
      if bool_decide (0 < length (df_rows pending_reviews))%nat then
        st_info (pretty (length (df_rows pending_reviews)) +:+ " pending review(s)");;
        if bool_decide (0 < selected_option)%nat then
          match df_iloc pending_reviews (selected_option - 1) with
          | None => raise (Exception "list index out of range")
          | Some selected_record =>
              checker_form drv pg selected_record
                edited_size edited_gender checker_comments approve_btn reject_btn
          end
        else mret tt
      else st_success "No pending reviews!"
  end.

(** ** Vocabulary for the handlers' outcomes *)

(** In world [w] the target row can be addressed: the connection opens,
    the schema has a first column and the selected record has a cell
    under it. *)
Definition locates {W} (drv : Driver W) (pg : Page) (selected_record : Series)
    (w : World W) (first_col : string) (first_val : PyVal) : Prop :=
  get_connection drv (warehouse w) = inr tt ∧
  head (map fst (table_schema pg)) = Some first_col ∧
  series_get first_col selected_record = Some first_val.

(** The three ways a guarded update (connect, address the row, UPDATE,
    confirm, rerun; any [Exception] shown as an error) can end when
    started in [w] with the mapping [data] and the confirmation [msg]. *)
Inductive update_outcome {W} (drv : Driver W) (pg : Page) (selected_record : Series)
    (data : list (string * PyVal)) (msg : string) (w : World W)
  : Outcome unit * World W -> Prop :=
| not_attempted (e : exn) :
    (forall first_col first_val, ¬ locates drv pg selected_record w first_col first_val) ->
    update_outcome drv pg selected_record data msg w
      (Returns tt,
       {| warehouse := warehouse w;
          trace := trace w ++ [StError ("Error: " +:+ exn_str e)] |})
| refused (first_col : string) (first_val : PyVal) (e : exn) :
    locates drv pg selected_record w first_col first_val ->
    cursor_execute drv
      (update_query (TABLE_NAME pg) data (where_clause_of first_col first_val))
      None (warehouse w) = inl e ->
    update_outcome drv pg selected_record data msg w
      (Returns tt,
       {| warehouse := warehouse w;
          trace := trace w ++
            [Execute (update_query (TABLE_NAME pg) data
                        (where_clause_of first_col first_val)) None;
             StError ("Error: " +:+ exn_str e)] |})
| applied (first_col : string) (first_val : PyVal) (wh' : W) :
    locates drv pg selected_record w first_col first_val ->
    cursor_execute drv
      (update_query (TABLE_NAME pg) data (where_clause_of first_col first_val))
      None (warehouse w) = inr wh' ->
    update_outcome drv pg selected_record data msg w
      (Reruns,
       {| warehouse := wh';
          trace := trace w ++
            [Execute (update_query (TABLE_NAME pg) data
                        (where_clause_of first_col first_val)) None;
             StSuccess msg; SetTableDataNone] |}).

(* ===================================================================== *)
(** * CSV loader page (csv_upload_to_table.py) *)
(* ===================================================================== *)

Definition nl : string := String "010"%char "".

(** ** Table materialization *)

Definition column_def (col dtype : string) : string :=
  "`" +:+ col +:+ "` " +:+ infer_sql_type dtype.

Definition columns_def (df : DataFrame) : list string :=
  map (fun '(col, dtype) => column_def col dtype) (df_dtypes df).

(** The triple-quoted f-string, line breaks and indentation included. *)
Definition create_sql (df : DataFrame) (table_name : string) : string :=
  nl +:+ "    CREATE TABLE IF NOT EXISTS " +:+ table_name +:+ " (" +:+
  nl +:+ "        " +:+ join ", " (columns_def df) +:+
  nl +:+ "    ) USING DELTA" +:+
  nl +:+ "    ".

Definition create_table_from_dataframe {W} (drv : Driver W) (df : DataFrame)
    (table_name : string) : Script W unit :=
  execute drv (create_sql df table_name) None.

(** ** Row writer *)

(** The state of the two nested loops: the pieces collected so far, the
    bindings, and the running counter [p]. *)
Definition bind_value (acc : list string * Params * nat) (v : PyVal)
  : list string * Params * nat :=
  let '(ph, params, p) := acc in
  let key := "p" +:+ pretty p in
  (ph ++ [":" +:+ key], <[key := if isna v then PNone else v]> params, S p).

Definition bind_row (acc : list string * Params * nat) (row : list PyVal)
  : list string * Params * nat :=
  let '(values_sql_parts, params, p) := acc in
  let '(ph, params', p') := fold_left bind_value row ([], params, p) in
  (values_sql_parts ++ ["(" +:+ join "," ph +:+ ")"], params', p').

Definition bind_rows (rows : list (list PyVal)) : list string * Params * nat :=
  fold_left bind_row rows ([], ∅, 0%nat).

Definition col_list_sql (df : DataFrame) : string :=
  join "," (map (fun col => "`" +:+ col +:+ "`") (df_columns df)).

Definition insert_verb (mode : string) : string :=
  if String.eqb mode "overwrite" then "INSERT OVERWRITE " else "INSERT INTO ".

Definition insert_sql (df : DataFrame) (table_name mode : string) : string :=
  insert_verb mode +:+ table_name +:+ " (" +:+ col_list_sql df +:+ ") VALUES "
    +:+ join "," (bind_rows (df_rows df)).1.1.

Definition insert_params (df : DataFrame) : Params := (bind_rows (df_rows df)).1.2.

Definition insert_data_to_table {W} (drv : Driver W) (df : DataFrame)
    (table_name mode : string) : Script W unit :=
  match df_rows df with
  | [] => mret tt
  | _ :: _ => execute drv (insert_sql df table_name mode) (Some (insert_params df))
  end.

(** ** Closed forms of the two loops *)

(** What a cell is bound to. *)
Definition bound_value (v : PyVal) : PyVal := if isna v then PNone else v.

Definition param_key (k : nat) : string := "p" +:+ pretty k.

(** The markers [:p<p>], ..., [:p<p+n-1>] of a row of [n] cells. *)
Definition placeholders (p n : nat) : list string :=
  map (fun k => ":" +:+ param_key k) (seq p n).

(** The parenthesised groups of rows of the given lengths, numbering
    from [p]. *)
Fixpoint value_groups (p : nat) (lens : list nat) : list string :=
  match lens with
  | [] => []
  | n :: lens' =>
      ("(" +:+ join "," (placeholders p n) +:+ ")") :: value_groups (p + n) lens'
  end.

(** The bindings after the cells [vs] were bound from counter [p] on. *)
Fixpoint bind_cells (p : nat) (vs : list PyVal) (params : Params) : Params :=
  match vs with
  | [] => params
  | v :: vs' => bind_cells (S p) vs' (<[param_key p := bound_value v]> params)
  end.

(** ** The "Overwrite Existing Table" branch of the upload button *)

Definition table_exists {W} (drv : Driver W) (table_name : string) : Script W bool :=
  try_except
    (execute drv ("DESCRIBE TABLE " +:+ table_name) None;; mret true)
    (fun _ => mret false).

(** Steps 5 and 6 of the branch; progress bar and status line are left
    out, the summary is cut to its row-count line. *)
Definition overwrite_existing_table {W} (drv : Driver W) (df_to_upload : DataFrame)
    (target_table : string) : Script W unit :=
  present ← table_exists drv target_table;
  (if negb present then
     create_table_from_dataframe drv df_to_upload target_table;;
     st_info ("Table `" +:+ target_table +:+ "` created (did not exist)")
   else mret tt);;
  insert_data_to_table drv df_to_upload target_table "overwrite";;
  st_success (pretty (length (df_rows df_to_upload)) +:+ " rows written (overwrite mode)").

(* ===================================================================== *)
(** * Identity resolution ([get_current_user_email], same text on both pages) *)
(* ===================================================================== *)

(** The user object [w.current_user.me()] returns, with the attributes
    the function reads; [emails] holds the [value] of each entry. *)
Record WorkspaceUser : Type := {
  user_name : option string;
  emails : option (list (option string));
  display_name : option string;
  id : option string
}.

(** What each source answers on one call.
    - [sql_current_user]: [inl] when anything from [get_connection] to
      [fetchone] raises, else the fetched row ([None] when there is none);
    - [experimental_user]: [None] when [st] has no such attribute, else
      its claims;
    - [workspace_me]: [inl] when [WorkspaceClient()] or [me()] raises. *)
Record IdentitySources : Type := {
  sql_current_user : exn + option (list PyVal);
  experimental_user : option (list (string * string));
  workspace_me : exn + WorkspaceUser
}.

Fixpoint claims_get (key : string) (claims : list (string * string)) : option string :=
  match claims with
  | [] => None
  | (k, v) :: claims' => if String.eqb k key then Some v else claims_get key claims'
  end.

(** [x and '@' in x] on an optional string. *)
Definition email_shaped (x : option string) : bool :=
  match x with
  | Some s => negb (String.eqb s "") && str_in "@" s
  | None => false
  end.

(** Method 1: the inner [try]; an exception there is swallowed. *)
Definition from_sql (src : IdentitySources) : option string :=
  match sql_current_user src with
  | inr (Some (user_value :: _)) =>
      if truthy user_value && str_in "@" (str user_value)
      then Some (str user_value) else None
  | _ => None
  end.

(** Method 2: the Streamlit user claim. *)
Definition from_streamlit (src : IdentitySources) : option string :=
  match experimental_user src with
  | Some ((_ :: _) as claims) =>
      let user_email := claims_get "email" claims in
      if email_shaped user_email then user_email else None
  | _ => None
  end.

(** [current_user.emails[0].value] when the list is there and not empty. *)
Definition first_email (u : WorkspaceUser) : option string :=
  match emails u with
  | Some (email_value :: _) => email_value
  | _ => None
  end.

(** Method 3, once [me()] has returned. *)
Definition from_workspace (u : WorkspaceUser) : string :=
  if email_shaped (user_name u) then default "" (user_name u)
  else if email_shaped (first_email u) then default "" (first_email u)
  else if email_shaped (display_name u) then default "" (display_name u)
  else match id u with
       | Some i => if negb (String.eqb i "") then i else "unknown"
       | None => "unknown"
       end.

(** The body of the outer [try]. *)
Definition identity_body (src : IdentitySources) : exn + string :=
  match from_sql src with
  | Some user_value => inr user_value
  | None =>
      match from_streamlit src with
      | Some user_email => inr user_email
      | None =>
          match workspace_me src with
          | inl e => inl e
          | inr me => inr (from_workspace me)
          end
      end
  end.

Definition get_current_user_email (src : IdentitySources) : string :=
  match identity_body src with
  | inr user => user
  | inl _ => "unknown@databricks.com"
  end.

(** Some source hands over a value with an "@" in the place the function
    reads: the first column of the fetched row, the [email] claim, the
    user's [user_name], first [emails] entry or [display_name]. *)
Definition supplies_email (src : IdentitySources) : Prop :=
  is_Some (from_sql src) ∨
  is_Some (from_streamlit src) ∨
  exists me, workspace_me src = inr me ∧
    (email_shaped (user_name me) = true ∨
     email_shaped (first_email me) = true ∨
     email_shaped (display_name me) = true).

(** No source answers: the first two give no e-mail and the workspace
    lookup raises. *)
Definition every_method_fails (src : IdentitySources) : Prop :=
  from_sql src = None ∧ from_streamlit src = None ∧
  exists e, workspace_me src = inl e.

(** ** A warehouse with room for one table

    Its state says whether the table exists.  The CREATE statement built
    for [df] and [table_name] brings the table into existence and changes
    nothing when it is already there; DESCRIBE fails while it is absent;
    every other statement is accepted. *)
Definition single_table (df : DataFrame) (table_name : string) : Driver bool := {|
  get_connection := fun _ => inr tt;
  cursor_execute := fun op _ present =>
    if String.eqb op (create_sql df table_name) then inr true
    else if String.eqb op ("DESCRIBE TABLE " +:+ table_name) then
      (if present then inr present
       else inl (Exception "TABLE_OR_VIEW_NOT_FOUND"))
    else inr present
|}.

(** ** Sample session *)

Definition sample_page : Page := {|
  TABLE_NAME := "dg_dev.sandbox.out_merchant_business_size_for_bank";
  table_schema := [("merchant_id", "string");
                   ("business_reviewed_size_pending", "string");
                   ("business_reviewed_gender_pending", "string");
                   ("review_status", "string")];
  current_user := "checker@example.com";
  manila_timestamp := "2025-03-01 09:30:00"
|}.

Definition sample_table : DataFrame := {|
  df_dtypes := [("merchant_id", "object");
                ("business_reviewed_size_pending", "object");
                ("business_reviewed_gender_pending", "object");
                ("review_status", "object")];
  df_rows := [ [PStr "M-001"; PNaN; PNaN; PNaN];
               [PStr "M-002"; PStr "SMALL"; PStr "MALE"; PStr "PENDING"];
               [PStr "M-003"; PStr "LARGE"; PStr "FEMALE"; PStr "APPROVED"] ]
|}.

Definition sample_record : Series :=
  [("merchant_id", PStr "M-002");
   ("business_reviewed_size_pending", PStr "SMALL");
   ("business_reviewed_gender_pending", PStr "MALE");
   ("review_status", PStr "PENDING")].

(** The end-to-end example of the specification: three rows, [age]
    scanned as object because of the "no data" cell read as missing. *)
Definition sample_upload : DataFrame := {|
  df_dtypes := [("name", "object"); ("age", "object")];
  df_rows := [ [PStr "Ana"; PStr "34"];
               [PStr "Ben"; PNaN];
               [PStr "Cy"; PStr "41"] ]
|}.

(** A header-only CSV: columns, no rows. *)
Definition header_only_upload : DataFrame := {|
  df_dtypes := [("name", "object"); ("age", "object")];
  df_rows := []
|}.

(** The example of the specification: the SQL call throws, there is no
    Streamlit claim, the workspace user has only an id. *)
Definition bare_id_sources : IdentitySources := {|
  sql_current_user := inl (Exception "warehouse stopped");
  experimental_user := None;
  workspace_me := inr {| user_name := Some "svc-loader"; emails := None;
                         display_name := None; id := Some "7340219" |}
|}.

Definition email_sources : IdentitySources := {|
  sql_current_user := inr (Some [PStr "svc-loader"]);
  experimental_user := Some [("email", "ana@example.com")];
  workspace_me := inl (Exception "default auth: cannot configure")
|}.

Definition no_sources : IdentitySources := {|
  sql_current_user := inl (Exception "warehouse stopped");
  experimental_user := None;
  workspace_me := inl (Exception "default auth: cannot configure")
|}.

(* ===================================================================== *)
(** * The rest of the two pages *)
(* ===================================================================== *)

(** ** More sample data *)

(** The same merchant as [sample_record], as an older cached copy of the
    row would show it: already approved, other pending values. *)
Definition sample_record_approved : Series :=
  [("merchant_id", PStr "M-002");
   ("business_reviewed_size_pending", PStr "LARGE");
   ("business_reviewed_gender_pending", PStr "FEMALE");
   ("review_status", PStr "APPROVED")].


(* ===================================================================== *)
(** * CSV loader page: backup, metadata, the upload button *)
(* ===================================================================== *)

(** ** Python string pieces used by the backup

    For [strip] a character is a code point below 256. *)

(** [c.isspace()]. *)
Definition py_isspace (c : ascii) : bool :=
  let n := nat_of_ascii c in
  ((9 <=? n) && (n <=? 13) || (28 <=? n) && (n <=? 32) ||
   (n =? 133) || (n =? 160))%nat.

Fixpoint lstrip (s : string) : string :=
  match s with
  | EmptyString => EmptyString
  | String c s' => if py_isspace c then lstrip s' else s
  end.

Fixpoint rstrip (s : string) : string :=
  match s with
  | EmptyString => EmptyString
  | String c s' =>
      match rstrip s' with
      | EmptyString => if py_isspace c then EmptyString else String c EmptyString
      | t => String c t
      end
  end.

(** [s.strip()]. *)
Definition strip (s : string) : string := rstrip (lstrip s).

(** [s.split(".")]: never empty, one more piece than there are dots. *)
Fixpoint split_dot (s : string) : list string :=
  match s with
  | EmptyString => [EmptyString]
  | String c s' =>
      if Ascii.eqb c "."%char then EmptyString :: split_dot s'
      else match split_dot s' with
           | piece :: pieces => String c piece :: pieces
           | [] => [String c EmptyString]
           end
  end.

(** [s.rsplit('.', 1)]: cut at the last dot, or the whole string. *)
Fixpoint rsplit_dot (s : string) : list string :=
  match s with
  | EmptyString => [EmptyString]
  | String c s' =>
      match rsplit_dot s' with
      | [before; after] => [String c before; after]
      | _ => if Ascii.eqb c "."%char then [EmptyString; s'] else [s]
      end
  end.

(** [l[i]] on a list of strings. *)
Definition list_item (l : list string) (i : nat) : exn + string :=
  match l !! i with
  | Some x => inr x
  | None => inl (Exception "list index out of range")
  end.

(** ** Backup of the uploaded file *)

(** The file name with the timestamp put before the extension.  Both
    indexings of the [rsplit] result are written as the code has them;
    the second one is guarded by ['.' in name]. *)
Definition stamped_file_name (name timestamp : string) : exn + string :=
  match list_item (rsplit_dot name) 0 with
  | inl e => inl e
  | inr original_name =>
      match (if str_in "." name then list_item (rsplit_dot name) 1 else inr "csv") with
      | inl e => inl e
      | inr extension =>
          inr (original_name +:+ "_" +:+ timestamp +:+ "." +:+ extension)
      end
  end.

Definition volume_file_path (name timestamp volume_path : string) : exn + string :=
  match stamped_file_name name timestamp with
  | inl e => inl e
  | inr file_name =>
      let parts := split_dot (strip volume_path) in
      match list_item parts 0, list_item parts 1, list_item parts 2 with
      | inr catalog, inr schema, inr volume_name =>
          inr ("/Volumes/" +:+ catalog +:+ "/" +:+ schema +:+ "/" +:+ volume_name
               +:+ "/" +:+ file_name)
      | inl e, _, _ | _, inl e, _ | _, _, inl e => inl e
      end
  end.

(** The object store next to the warehouse: [files_upload path] either
    raises or moves the platform (the [warehouse] of the world, which
    stands for everything outside the page) to its next state. *)
Definition upload_csv_to_volume {W} (files_upload : string -> W -> exn + W)
    (name timestamp volume_path : string) : Script W string :=
  fun w =>
    match volume_file_path name timestamp volume_path with
    | inl e => (Raises e, w)
    | inr path =>
        match files_upload path (warehouse w) with
        | inl e => (Raises e, w)
        | inr wh' => (Returns path, {| warehouse := wh'; trace := trace w |})
        end
    end.

Definition UPLOAD_VOLUME : string := "dg_dev.sandbox.csv_uploads".

(** ** Permission probe *)







(** ** Metadata columns *)

(** [df[col] = value] for a scalar: an existing column is overwritten in
    place, a new one is added last; either way the column takes the
    given dtype. *)
Definition df_set_column (df : DataFrame) (col : string) (value : PyVal)
    (dtype : string) : DataFrame :=
  match list_find (fun c => c = col) (df_columns df) with
  | Some (i, _) =>
      {| df_dtypes := <[i := (col, dtype)]> (df_dtypes df);
         df_rows := map (fun row => <[i := value]> row) (df_rows df) |}
  | None =>
      {| df_dtypes := df_dtypes df ++ [(col, dtype)];
         df_rows := map (fun row => row ++ [value]) (df_rows df) |}
  end.

(** Step 3 of the button with the metadata box ticked; [now] is the
    Manila time already formatted, a string like [current_user]. *)
Definition with_metadata (df : DataFrame) (now current_user : string) : DataFrame :=
  df_set_column
    (df_set_column df "upload_timestamp" (PStr now) "object")
    "uploaded_by" (PStr current_user) "object".

(** ** The three mode branches and the button *)

Definition create_new_table {W} (drv : Driver W) (df_to_upload : DataFrame)
    (target_table : string) : Script W unit :=
  table_exists drv target_table ≫= fun present : bool =>
  if present then
    st_error ("Table `" +:+ target_table
              +:+ "` already exists. Choose 'Append' or 'Overwrite' mode.")
  else
    create_table_from_dataframe drv df_to_upload target_table;;
    st_success ("Table `" +:+ target_table +:+ "` created successfully!");;
    insert_data_to_table drv df_to_upload target_table "append";;
    st_success (pretty (length (df_rows df_to_upload)) +:+ " rows inserted").

Definition append_to_existing_table {W} (drv : Driver W) (df_to_upload : DataFrame)
    (target_table : string) : Script W unit :=
  table_exists drv target_table ≫= fun present : bool =>
  if negb present then
    st_error ("Table `" +:+ target_table
              +:+ "` does not exist. Choose 'Create New Table' mode.")
  else
    insert_data_to_table drv df_to_upload target_table "append";;
    st_success (pretty (length (df_rows df_to_upload)) +:+ " rows appended").

(** Step 5 and 6: the branch on the select box's value. *)
Definition write_table {W} (drv : Driver W) (df_to_upload : DataFrame)
    (target_table upload_mode : string) : Script W unit :=
  if String.eqb upload_mode "Create New Table" then
    create_new_table drv df_to_upload target_table
  else if String.eqb upload_mode "Append to Existing Table" then
    append_to_existing_table drv df_to_upload target_table
  else overwrite_existing_table drv df_to_upload target_table.

(** What the button needs from the run: the uploaded file's name, the
    dataframe read from it, the form fields, the resolved user and the
    two clock readings (file-name format and column format). *)
Record UploadForm : Type := {
  file_name : string;
  df : DataFrame;
  target_table : string;
  upload_mode : string;
  add_metadata : bool;
  uploader : string;
  file_timestamp : string;
  column_timestamp : string
}.

(** Step 3: a copy of the dataframe, with the metadata columns when
    the box is ticked. *)
Definition df_to_upload_of (form : UploadForm) : DataFrame :=
  if add_metadata form
  then with_metadata (df form) (column_timestamp form) (uploader form)
  else df form.

(** The body of [if st.button("Upload and Create/Update Table")].  The
    permission probe only adds a warning and never stops the run; it is
    left out together with the progress bar, the status line, the
    traceback display and the [upload_success] flag nothing reads. *)
Definition upload_button {W} (drv : Driver W) (files_upload : string -> W -> exn + W)
    (form : UploadForm) : Script W unit :=
  if negb (truthy (PStr (target_table form))) then
    st_error "Please specify a target table name"
  else
    try_except
      (volume_path ← upload_csv_to_volume files_upload (file_name form)
                       (file_timestamp form) UPLOAD_VOLUME;
       st_success ("CSV uploaded to: `" +:+ volume_path +:+ "`");;
       let df_to_upload := df_to_upload_of form in
       connect drv;;
       write_table drv df_to_upload (target_table form) (upload_mode form))
      (fun e => st_error ("Error during upload: " +:+ exn_str e)).

(** Whether the warehouse in state [wh] accepts a statement sent
    without bindings. *)
Definition accepts {W} (drv : Driver W) (operation : string) (wh : W) : bool :=
  match cursor_execute drv operation None wh with
  | inr _ => true
  | inl _ => false
  end.

(** The statements a branch means to send, in order, when the DESCRIBE
    probe found the table ([present]) or not. *)
Definition planned_statements (present : bool) (df_to_upload : DataFrame)
    (target_table upload_mode : string) : list (string * option Params) :=
  let insert mode :=
    match df_rows df_to_upload with
    | [] => []
    | _ :: _ => [(insert_sql df_to_upload target_table mode,
                  Some (insert_params df_to_upload))]
    end in
  let create := (create_sql df_to_upload target_table, None) in
  ("DESCRIBE TABLE " +:+ target_table, None) ::
  (if String.eqb upload_mode "Create New Table" then
     if present then [] else create :: insert "append"
   else if String.eqb upload_mode "Append to Existing Table" then
     if present then insert "append" else []
   else (if present then [] else [create]) ++ insert "overwrite").

(** ** Sample upload *)

(** An object store that keeps the paths written to it, on top of the
    statement log of [recording]. *)
Definition keep_path (path : string) (wh : list string) : exn + list string :=
  inr (wh ++ ["PUT " +:+ path]).

Definition refuse_path (path : string) (wh : list string) : exn + list string :=
  inl (Exception "PERMISSION_DENIED").

Definition sample_form : UploadForm := {|
  file_name := "people.2025.csv";
  df := sample_upload;
  target_table := "dg_dev.sandbox.people";
  upload_mode := "Create New Table";
  add_metadata := true;
  uploader := "ana@example.com";
  file_timestamp := "2025-03-01_09-30-00";
  column_timestamp := "2025-03-01 09:30:00"
|}.


(* ===================================================================== *)
(** * Maker-checker page: widgets, labels, counters, session *)
(* ===================================================================== *)

(** ** Form fields *)

(** The call a form field ends in: [st.selectbox] with its options and
    preselected [index], or [st.text_input] with its initial value. *)
Inductive Widget : Type :=
| SelectBox (label : string) (options : list string) (index : nat)
    (key help : string) (disabled : bool)
| TextInput (label value key : string) (disabled : bool).

(** [v != ""]. *)
Definition ne_empty (v : PyVal) : bool :=
  match v with
  | PStr s => negb (String.eqb s "")
  | _ => true
  end.

(** [current_value] after the two guards that open the function. *)
Definition shown_value (current_value : PyVal) : PyVal :=
  let current_value :=
    match current_value with PNone => PStr "" | v => v end in
  if isna current_value then PStr "" else current_value.

(** [str(current_value) if current_value != "" and current_value is not
    None else ""]. *)
Definition current_str (current_value : PyVal) : string :=
  if ne_empty current_value && negb (bool_decide (current_value = PNone))
  then str current_value else "".

(** [options.index(x) if x in options else 0]. *)
Definition default_index (options : list string) (x : string) : nat :=
  if bool_decide (x ∈ options) then
    match list_find (fun option => option = x) options with
    | Some (i, _) => i
    | None => 0%nat
    end
  else 0%nat.

Definition render_form_field (column_name column_type : string)
    (current_value : PyVal) (key_suffix : string) (disabled : bool) : Widget :=
  let current_value := shown_value current_value in
  let field_key :=
    if truthy (PStr key_suffix) then column_name +:+ "_" +:+ key_suffix
    else column_name in
  if bool_decide (column_name ∈ ["business_reviewed_size_pending";
                                  "business_reviewed_size"]) then
    SelectBox column_name BUSINESS_SIZE_OPTIONS
      (default_index BUSINESS_SIZE_OPTIONS (current_str current_value))
      field_key "Select business size: MICRO, SMALL, MEDIUM, or LARGE" disabled
  else if bool_decide (column_name ∈ ["business_reviewed_gender_pending";
                                       "business_reviewed_gender"]) then
    SelectBox column_name GENDER_OPTIONS
      (default_index GENDER_OPTIONS (current_str current_value))
      field_key "Select gender: MALE or FEMALE" disabled
  else
    TextInput (column_name +:+ " (" +:+ column_type +:+ ")")
      (current_str current_value) field_key disabled.

(** The option a select box starts on. *)
Definition preselected (wd : Widget) : option string :=
  match wd with
  | SelectBox _ options index _ _ _ => options !! index
  | TextInput _ _ _ _ => None
  end.

(** ** Record labels of the maker's select box *)

(** One pass of the inner loop: a cell is shown when it is not missing,
    not the empty string, and fewer than three are shown already. *)
Definition display_step (display_cols : list string) (cell : string * PyVal)
  : list string :=
  let '(col, val) := cell in
  if negb (isna val) && ne_empty val && (length display_cols <? 3)%nat
  then display_cols ++ [col +:+ "=" +:+ str val]
  else display_cols.

(** The label of the row at position [i] (the frame read from the
    warehouse has the positions as its index). *)
Definition record_display (i : nat) (row : Series) : string :=
  "Row " +:+ pretty i +:+ ": " +:+ join " | " (fold_left display_step row []).

Definition maker_record_options (table_data : DataFrame) : list string :=
  "-- Select a record --" ::
  imap (fun i row => record_display i (zip (df_columns table_data) row))
       (df_rows table_data).

(** The cells a label may show, in column order. *)
Definition visible_cells (row : Series) : list string :=
  map (fun '(col, val) => col +:+ "=" +:+ str val)
      (filter (fun cell => negb (isna cell.2) && ne_empty cell.2 = true) row).

(** The "Submit New Review" tab: the select box over the cached rows (0
    is the placeholder), then the maker form on the row picked.  The
    read-only display of the record and of its status is left out. *)
Definition maker_submit_tab {W} (drv : Driver W) (pg : Page) (table_data : DataFrame)
    (selected_option : nat) (size_value gender_value : string) (submit_btn : bool)
  : Script W unit :=
  if bool_decide (0 < length (df_rows table_data))%nat then
    if bool_decide (0 < selected_option)%nat then
      match df_iloc table_data (selected_option - 1) with
      | None => raise (Exception "single positional indexer is out-of-bounds")
      | Some selected_record =>
          maker_form drv pg selected_record size_value gender_value submit_btn
      end
    else mret tt
  else st_info "No records found".

(** ** Counters of the "My Submissions" tab *)

Definition count_status (submissions : DataFrame) (status : string) : option nat :=
  (fun d => length (df_rows d)) <$> df_where_eq submissions "review_status" status.

(** [df[df[label].isin(values)]] for string values. *)
Definition df_where_isin (df : DataFrame) (label : string) (values : list string)
  : option DataFrame :=
  if bool_decide (label ∈ df_columns df) then
    Some {| df_dtypes := df_dtypes df;
            df_rows := filter (fun row =>
                         Exists (fun value =>
                           series_get label (zip (df_columns df) row)
                           = Some (PStr value)) values)
                         (df_rows df) |}
  else None.

(** The numbers the tab computes for the current user in its
    [if len(my_submissions) > 0] branch: rows listed under the default
    status filter, total, pending, approved, rejected.  [None] stands
    for the KeyError of a missing column. *)
Definition my_submissions_counters (table_data : DataFrame) (current_user : string)
  : option (nat * nat * nat * nat * nat) :=
  my_submissions ← df_where_eq table_data "reviewed_by_maker" current_user;
  filtered_data ← df_where_isin my_submissions "review_status"
                    [STATUS_PENDING; STATUS_APPROVED; STATUS_REJECTED];
  pending ← count_status my_submissions STATUS_PENDING;
  approved ← count_status my_submissions STATUS_APPROVED;
  rejected ← count_status my_submissions STATUS_REJECTED;
  Some (length (df_rows filtered_data), length (df_rows my_submissions),
        pending, approved, rejected).

(** ** Session state *)

Definition AVAILABLE_TABLES : list (string * string) :=
  [("Dev - Merchant Business Size",
    "dg_dev.sandbox.out_merchant_business_size_for_bank");
   ("Prod Test - Merchant Business Size",
    "dg_prod.sandbox.out_merchant_business_size_for_bank_test")].

(** The entries of [st.session_state] that decide which table is in use
    and whether the main interface is shown. *)
Record Session : Type := {
  table_data : option DataFrame;
  session_schema : option (list (string * string));
  connection_established : bool;
  selected_table : string;
  current_table_name : string
}.

Definition initial_session : Session := {|
  table_data := None;
  session_schema := None;
  connection_established := false;
  selected_table := "Dev - Merchant Business Size";
  current_table_name := "dg_dev.sandbox.out_merchant_business_size_for_bank"
|}.

(** What the warehouse gave a press of "Connect to Table": nothing
    before [table_data] was assigned, the rows but no schema, or both. *)
Inductive ConnectAnswer : Type :=
| ReadFailed (e : exn)
| SchemaFailed (rows : DataFrame) (e : exn)
| Connected (rows : DataFrame) (schema : list (string * string)).

(** What a run can do to the session. *)
Inductive Action : Type :=
| SelectTable (selected_table_name : string)
| PressConnect (answer : ConnectAnswer)
| DropTableData.

(** [DropTableData] is [st.session_state.table_data = None], as done by
    the two refresh buttons and after every accepted update.  [None]
    stands for the KeyError of a table name that is no key of
    [AVAILABLE_TABLES]. *)
Definition session_step (a : Action) (s : Session) : option Session :=
  match a with
  | SelectTable selected_table_name =>
      if bool_decide (selected_table_name ≠ selected_table s) then
        name ← claims_get selected_table_name AVAILABLE_TABLES;
        Some {| table_data := None;
                session_schema := None;
                connection_established := false;
                selected_table := selected_table_name;
                current_table_name := name |}
      else Some s
  | PressConnect (ReadFailed _) =>
      Some {| table_data := table_data s;
              session_schema := session_schema s;
              connection_established := false;
              selected_table := selected_table s;
              current_table_name := current_table_name s |}
  | PressConnect (SchemaFailed rows _) =>
      Some {| table_data := Some rows;
              session_schema := session_schema s;
              connection_established := false;
              selected_table := selected_table s;
              current_table_name := current_table_name s |}
  | PressConnect (Connected rows schema) =>
      Some {| table_data := Some rows;
              session_schema := Some schema;
              connection_established := true;
              selected_table := selected_table s;
              current_table_name := current_table_name s |}
  | DropTableData =>
      Some {| table_data := None;
              session_schema := session_schema s;
              connection_established := connection_established s;
              selected_table := selected_table s;
              current_table_name := current_table_name s |}
  end.

Fixpoint session_run (actions : list Action) (s : Session) : option Session :=
  match actions with
  | [] => Some s
  | a :: rest =>
      match session_step a s with
      | Some s' => session_run rest s'
      | None => None
      end
  end.

(** [if st.session_state.connection_established and
    st.session_state.table_data is not None]. *)
Definition main_interface_shown (s : Session) : bool :=
  connection_established s && bool_decide (table_data s ≠ None).

(** What every reachable session satisfies: the table name in use is
    the one [AVAILABLE_TABLES] gives for the selected entry, and an
    established connection has a schema. *)
Definition session_ok (s : Session) : Prop :=
  claims_get (selected_table s) AVAILABLE_TABLES = Some (current_table_name s) ∧
  (connection_established s = true -> session_schema s ≠ None).

(** ** Sample review table *)

Definition sample_reviews : DataFrame := {|
  df_dtypes := [("merchant_id", "object"); ("review_status", "object");
                ("reviewed_by_maker", "object")];
  df_rows := [ [PStr "M-001"; PStr "PENDING"; PStr "maker@example.com"];
               [PStr "M-002"; PStr "APPROVED"; PStr "maker@example.com"];
               [PStr "M-003"; PStr "ON_HOLD"; PStr "maker@example.com"];
               [PStr "M-004"; PStr "REJECTED"; PStr "other@example.com"];
               [PStr "M-005"; PNaN; PNaN] ]
|}.

(* ===================================================================== *)
(** * Properties *)
(* ===================================================================== *)

(* --------------------------------------------------------------------- *)
(** ** Proof automation *)
(* --------------------------------------------------------------------- *)

(** Closes [x ∉ [a; b; ...]] for distinct literals. *)
Ltac not_listed :=
  let H := fresh in
  intros H;
  repeat (apply elem_of_cons in H as [H|H]; [discriminate H|]);
  by apply elem_of_nil in H.

Ltac run_script :=
  unfold mbind, script_bind, mret, script_ret, try_except, connect,
    update_record, execute, report_error, st_error, st_success, st_info,
    st_rerun, emit, raise; simpl.

(* --------------------------------------------------------------------- *)
(** ** Type inference *)
(* --------------------------------------------------------------------- *)

Example infer_object : infer_sql_type "object" = "STRING".
Proof. reflexivity. Qed.
Example infer_datetime_ns : infer_sql_type "datetime64[ns]" = "TIMESTAMP".
Proof. reflexivity. Qed.
Example infer_datetime_tz : infer_sql_type "datetime64[ns, UTC]" = "TIMESTAMP".
Proof. reflexivity. Qed.
Example infer_category : infer_sql_type "category" = "STRING".
Proof. reflexivity. Qed.
Example infer_int32 : infer_sql_type "int32" = "STRING".
Proof. reflexivity. Qed.

Lemma str_in_datetime_not_named (dtype name : string) :
  str_in "datetime" dtype = true ->
  str_in "datetime" name = false ->
  String.eqb dtype name = false.
Proof.
  intros Hin Hname. apply String.eqb_neq. intros ->. congruence.
Qed.

(** C4. [infer_sql_type] is a total function whose result is one of
    STRING, BIGINT, DOUBLE, BOOLEAN, TIMESTAMP; it maps object to STRING,
    int64 to BIGINT, float64 to DOUBLE, bool to BOOLEAN, every dtype whose
    name contains 'datetime' to TIMESTAMP and every other dtype to
    STRING. *)
Theorem infer_sql_type_policy (dtype : string) :
  infer_sql_type dtype ∈ sql_type_names ∧
  infer_sql_type "object" = "STRING" ∧
  infer_sql_type "int64" = "BIGINT" ∧
  infer_sql_type "float64" = "DOUBLE" ∧
  infer_sql_type "bool" = "BOOLEAN" ∧
  (str_in "datetime" dtype = true -> infer_sql_type dtype = "TIMESTAMP") ∧
  (dtype ∉ ["object"; "int64"; "float64"; "bool"] ->
   str_in "datetime" dtype = false -> infer_sql_type dtype = "STRING").
Proof.
  repeat split; try reflexivity.
  - unfold infer_sql_type, sql_type_names.
    repeat case_match; set_solver.
  - intros Hdt. unfold infer_sql_type.
    rewrite !(str_in_datetime_not_named dtype _ Hdt) by reflexivity.
    by rewrite Hdt.
  - intros Hother Hdt. unfold infer_sql_type. rewrite Hdt.
    repeat case_match; try reflexivity;
      match goal with
      | H : String.eqb dtype _ = true |- _ =>
          apply String.eqb_eq in H; subst; exfalso; apply Hother; set_solver
      end.
Qed.

Lemma infer_sql_type_policy_witness :
  infer_sql_type "datetime64[ns]" = "TIMESTAMP" ∧
  infer_sql_type "category" = "STRING".
Proof.
  split.
  - apply (infer_sql_type_policy "datetime64[ns]"). reflexivity.
  - apply (infer_sql_type_policy "category"); [|reflexivity].
    not_listed.
Defined.

Example update_query_quotes :
  update_query "t" [("name", PStr "O'Brien"); ("n", PInt 3); ("c", PNone)] "id = 7"
  = "UPDATE t SET name = 'O''Brien', n = 3, c = NULL WHERE id = 7".
Proof. vm_compute. reflexivity. Qed.

Example update_query_empty_string :
  update_query "t" [("c", PStr "")] "id = 1" = "UPDATE t SET c = NULL WHERE id = 1".
Proof. reflexivity. Qed.

(* --------------------------------------------------------------------- *)
(** ** Strings *)
(* --------------------------------------------------------------------- *)

Lemma string_app_cons (c : ascii) (a b : string) :
  String c a +:+ b = String c (a +:+ b).
Proof. reflexivity. Qed.

Lemma string_app_nil_r (a : string) : a +:+ "" = a.
Proof.
  induction a as [|x a IH]; [reflexivity|]. by rewrite string_app_cons, IH.
Qed.

Lemma string_app_assoc (a b c : string) : (a +:+ b) +:+ c = a +:+ b +:+ c.
Proof.
  induction a as [|x a IH]; [reflexivity|]. by rewrite !string_app_cons, IH.
Qed.

Lemma prefix_app (s post : string) : String.prefix s (s +:+ post) = true.
Proof.
  induction s as [|c s IH]; [by destruct post|].
  rewrite string_app_cons. simpl.
  destruct (ascii_dec c c); [exact IH | congruence].
Qed.

Lemma str_in_prefix (s t : string) : String.prefix s t = true -> str_in s t = true.
Proof.
  intros H. destruct t; simpl in *; by rewrite H.
Qed.

Lemma occurs_in_str_in (s t : string) : occurs_in s t -> str_in s t = true.
Proof.
  intros (pre & post & ->). induction pre as [|c pre IH].
  - change ("" +:+ s +:+ post) with (s +:+ post).
    apply str_in_prefix, prefix_app.
  - rewrite string_app_cons. simpl. rewrite IH. apply orb_true_r.
Qed.

Lemma occurs_in_refl (s : string) : occurs_in s s.
Proof. exists "", "". by rewrite string_app_nil_r. Qed.

Lemma occurs_in_app_l (s t pre : string) : occurs_in s t -> occurs_in s (pre +:+ t).
Proof.
  intros (p & q & ->). exists (pre +:+ p), q. by rewrite string_app_assoc.
Qed.

Lemma occurs_in_app_r (s t post : string) : occurs_in s t -> occurs_in s (t +:+ post).
Proof.
  intros (p & q & ->). exists p, (q +:+ post). by rewrite !string_app_assoc.
Qed.

(** A joined list shows each of its parts. *)
Lemma occurs_in_join (sep part : string) (parts : list string) :
  part ∈ parts -> occurs_in part (join sep parts).
Proof.
  unfold join. induction parts as [|x xs IH]; intros Hin.
  - by apply elem_of_nil in Hin.
  - apply elem_of_cons in Hin as [->|Hin]; simpl.
    + destruct xs; [apply occurs_in_refl|].
      apply occurs_in_app_r, occurs_in_refl.
    + destruct xs as [|y ys]; [by apply elem_of_nil in Hin|].
      apply occurs_in_app_l, occurs_in_app_l, IH, Hin.
Qed.

(* --------------------------------------------------------------------- *)
(** ** Scripts *)
(* --------------------------------------------------------------------- *)

Lemma issued_app (tr tr' : list Event) : issued (tr ++ tr') = issued tr ++ issued tr'.
Proof. apply omap_app. Qed.

Section GuardedUpdate.
Context {W : Type} (drv : Driver W) (pg : Page) (selected_record : Series).

(** Every run of the block the three handlers share ends in one of the
    three [update_outcome]s. *)
Lemma guarded_update_outcome (data : list (string * PyVal)) (msg : string)
    (w : World W) :
  update_outcome drv pg selected_record data msg w
    (try_except
       (where_clause ← target_where_clause drv pg selected_record;
        update_record drv (TABLE_NAME pg) data where_clause;;
        st_success msg;;
        emit SetTableDataNone;;
        st_rerun)
       report_error w).
Proof.
  unfold target_where_clause. run_script.
  destruct (get_connection drv (warehouse w)) as [e|[]] eqn:Hconn; simpl.
  { apply not_attempted. intros c v (Hc & _). congruence. }
  destruct (map fst (table_schema pg)) as [|first_col cols] eqn:Hcols; simpl.
  { apply (not_attempted _ _ _ _ _ _ (Exception _)).
    intros c v (_ & Hh & _). rewrite Hcols in Hh. discriminate. }
  destruct (series_get first_col selected_record) as [first_val|] eqn:Hcell; simpl.
  2:{ apply (not_attempted _ _ _ _ _ _ (Exception _)).
      intros c v (_ & Hh & Hg). rewrite Hcols in Hh. simplify_eq/=. }
  assert (locates drv pg selected_record w first_col first_val) as Hloc.
  { repeat split; [done| by rewrite Hcols | done]. }
  match goal with
  | |- context [cursor_execute drv ?q None (warehouse w)] =>
      destruct (cursor_execute drv q None (warehouse w)) as [e|wh'] eqn:Hexec
  end; simpl; rewrite <- ?app_assoc; simpl.
  - by apply (refused _ _ _ _ _ _ first_col first_val e).
  - by apply (applied _ _ _ _ _ _ first_col first_val wh').
Qed.

End GuardedUpdate.

(* --------------------------------------------------------------------- *)
(** ** Record updater *)
(* --------------------------------------------------------------------- *)

Lemma set_clauses_lookup (record_data : list (string * PyVal)) (i : nat)
    (col : string) (val : PyVal) :
  record_data !! i = Some (col, val) ->
  set_clauses record_data !! i = Some (set_clause_of col val).
Proof.
  intros H. unfold set_clauses. by rewrite list_lookup_fmap, H.
Qed.

Lemma set_clause_occurs (table_name where_clause : string)
    (record_data : list (string * PyVal)) (col : string) (val : PyVal) :
  (col, val) ∈ record_data ->
  occurs_in (set_clause_of col val) (update_query table_name record_data where_clause).
Proof.
  intros Hin. unfold update_query.
  do 3 apply occurs_in_app_l. apply occurs_in_app_r.
  apply occurs_in_join. unfold set_clauses.
  apply (list_elem_of_fmap_2 (fun '(col, val) => set_clause_of col val) _ (col, val) Hin).
Qed.

Lemma update_record_run {W} (drv : Driver W) (table_name where_clause : string)
    (record_data : list (string * PyVal)) (w : World W) :
  trace (update_record drv table_name record_data where_clause w).2
  = trace w ++ [Execute (update_query table_name record_data where_clause) None].
Proof.
  unfold update_record, execute.
  by destruct (cursor_execute drv _ None (warehouse w)).
Qed.

(** C8, as amended. [update_record] sends exactly one statement, the
    UPDATE text with no bound parameters, and for every non-empty string
    value [v] of a column [col] that text contains
    [col = '<v with each ' doubled>']. *)
Theorem update_record_escapes_strings {W} (drv : Driver W)
    (table_name where_clause : string) (record_data : list (string * PyVal))
    (w : World W) (col v : string) :
  (col, PStr v) ∈ record_data ->
  v ≠ "" ->
  issued (trace (update_record drv table_name record_data where_clause w).2)
  = issued (trace w) ++ [(update_query table_name record_data where_clause, None)] ∧
  String.prefix ("UPDATE " +:+ table_name +:+ " SET ")
    (update_query table_name record_data where_clause) = true ∧
  occurs_in (col +:+ " = '" +:+ replace_quote v +:+ "'")
    (update_query table_name record_data where_clause).
Proof.
  intros Hin Hv. split; [|split].
  - by rewrite update_record_run, issued_app.
  - unfold update_query.
    rewrite <- (string_app_assoc table_name " SET "),
            <- (string_app_assoc "UPDATE " (table_name +:+ " SET ")).
    apply prefix_app.
  - replace (col +:+ " = '" +:+ replace_quote v +:+ "'")
      with (set_clause_of col (PStr v)).
    + by apply set_clause_occurs.
    + unfold set_clause_of. simpl. by destruct v.
Qed.

Lemma update_record_escapes_strings_witness :
  occurs_in "name = 'O''Brien'"
    (update_query "t" [("name", PStr "O'Brien"); ("n", PInt 3)] "id = 7").
Proof.
  apply (update_record_escapes_strings recording "t" "id = 7"
           [("name", PStr "O'Brien"); ("n", PInt 3)] (fresh []) "name" "O'Brien").
  - apply list_elem_of_here.
  - discriminate.
Defined.

(** C8 as stated fails for the empty string: the SET clause built for
    [c = ""] does not contain [c = '']. *)
Lemma update_record_empty_string_not_quoted :
  ¬ (forall (table_name where_clause : string)
            (record_data : list (string * PyVal)) (col v : string),
       (col, PStr v) ∈ record_data ->
       occurs_in (col +:+ " = '" +:+ replace_quote v +:+ "'")
         (update_query table_name record_data where_clause)).
Proof.
  intros H.
  specialize (H "t" "id = 1" [("c", PStr "")] "c" "" (list_elem_of_here _ _)).
  apply occurs_in_str_in in H. vm_compute in H. discriminate.
Qed.

(** C10. In [update_record] a value that is [None] or [""] is written as
    the unquoted [col = NULL], in its own place of the SET list and never
    as [col = '']; so an approval sent with empty comments carries
    [checker_comments = NULL]. *)
Theorem update_record_null_for_empty
    (table_name where_clause : string) (record_data : list (string * PyVal))
    (i : nat) (col : string) (val : PyVal) :
  record_data !! i = Some (col, val) ->
  val = PNone ∨ val = PStr "" ->
  (set_clauses record_data !! i = Some (col +:+ " = NULL") ∧
   set_clause_of col val ≠ col +:+ " = ''" ∧
   occurs_in (col +:+ " = NULL") (update_query table_name record_data where_clause)) ∧
  (forall (pg : Page) (edited_size edited_gender : string),
     last (set_clauses (approve_update_data pg edited_size edited_gender ""))
     = Some "checker_comments = NULL").
Proof.
  intros Hi Hval.
  assert (set_clause_of col val = col +:+ " = NULL") as Hnull.
  { by destruct Hval as [-> | ->]. }
  split; [split; [|split]|].
  - by rewrite (set_clauses_lookup _ _ _ _ Hi), Hnull.
  - rewrite Hnull. intros Heq. apply (inj (String.app col)) in Heq. discriminate.
  - rewrite <- Hnull. apply set_clause_occurs.
    apply list_elem_of_lookup. eauto.
  - reflexivity.
Qed.

Lemma update_record_null_for_empty_witness :
  set_clauses [("checker_comments", PStr ""); ("n", PInt 1)] !! 0%nat
  = Some "checker_comments = NULL".
Proof.
  apply (update_record_null_for_empty "t" "id = 1"
           [("checker_comments", PStr ""); ("n", PInt 1)] 0 "checker_comments" (PStr "")).
  - reflexivity.
  - right. reflexivity.
Defined.

(* --------------------------------------------------------------------- *)
(** ** Maker and checker forms *)
(* --------------------------------------------------------------------- *)

(** The record the pending tab hands to the checker form is one whose
    cached review_status is PENDING. *)
Lemma pending_tab_selects_pending (table_data pending_reviews : DataFrame)
    (i : nat) (selected_record : Series) :
  df_where_eq table_data "review_status" STATUS_PENDING = Some pending_reviews ->
  df_iloc pending_reviews i = Some selected_record ->
  series_get "review_status" selected_record = Some (PStr STATUS_PENDING).
Proof.
  unfold df_where_eq, df_iloc. case_bool_decide; [|discriminate].
  intros [= <-]. simpl. unfold df_columns at 1. simpl.
  destruct (filter _ (df_rows table_data) !! i) as [row|] eqn:Hrow; [|discriminate].
  simpl. intros [= <-].
  apply list_elem_of_lookup_2, list_elem_of_filter in Hrow as [Hrow _].
  exact Hrow.
Qed.

(** A run of the pending tab either reaches the checker form, on a
    record whose cached review_status is PENDING, or sends nothing. *)
Lemma pending_tab_runs_form {W : Type} (drv : Driver W) (pg : Page)
    (table_data : DataFrame) (selected_option : nat)
    (edited_size edited_gender checker_comments : string)
    (approve_btn reject_btn : bool) (w : World W) :
  let r := checker_pending_tab drv pg table_data selected_option
             edited_size edited_gender checker_comments approve_btn reject_btn w in
  (exists pending_reviews selected_record,
     df_where_eq table_data "review_status" STATUS_PENDING = Some pending_reviews ∧
     df_iloc pending_reviews (selected_option - 1) = Some selected_record ∧
     series_get "review_status" selected_record = Some (PStr STATUS_PENDING) ∧
     r = checker_form drv pg selected_record edited_size edited_gender
           checker_comments approve_btn reject_btn
           {| warehouse := warehouse w;
              trace := trace w ++
                [StInfo (pretty (length (df_rows pending_reviews))
                         +:+ " pending review(s)")] |}) ∨
  (issued (trace r.2) = issued (trace w) ∧ warehouse r.2 = warehouse w).
Proof.
  intros r. subst r. unfold checker_pending_tab.
  destruct (df_where_eq table_data "review_status" STATUS_PENDING)
    as [pending_reviews|] eqn:Hpending; [|by right].
  case_bool_decide.
  2:{ right. run_script. rewrite issued_app. simpl. by rewrite app_nil_r. }
  run_script. case_bool_decide.
  2:{ right. simpl. rewrite issued_app. simpl. by rewrite app_nil_r. }
  destruct (df_iloc pending_reviews (selected_option - 1))
    as [selected_record|] eqn:Hrec.
  2:{ right. simpl. rewrite issued_app. simpl. by rewrite app_nil_r. }
  left. exists pending_reviews, selected_record.
  repeat split; try done.
  by apply (pending_tab_selects_pending table_data pending_reviews
              (selected_option - 1)).
Qed.

Section Handlers.
Context {W : Type} (drv : Driver W) (pg : Page) (selected_record : Series).

Lemma locates_unique (w : World W) (c c' : string) (v v' : PyVal) :
  locates drv pg selected_record w c v ->
  locates drv pg selected_record w c' v' ->
  c = c' ∧ v = v'.
Proof.
  intros (_ & Hc & Hv) (_ & Hc' & Hv'). rewrite Hc in Hc'.
  injection Hc' as <-. rewrite Hv in Hv'. by injection Hv' as <-.
Qed.

(** When the row can be addressed, exactly one statement goes out. *)
Lemma update_outcome_issued (data : list (string * PyVal)) (msg : string)
    (w : World W) (r : Outcome unit * World W) (c : string) (v : PyVal) :
  update_outcome drv pg selected_record data msg w r ->
  locates drv pg selected_record w c v ->
  issued (trace r.2)
  = issued (trace w) ++ [(update_query (TABLE_NAME pg) data (where_clause_of c v), None)].
Proof.
  intros Hout Hloc.
  destruct Hout as [e Hno | c' v' e Hloc' _ | c' v' wh' Hloc' _]; simpl.
  - by destruct (Hno c v).
  - destruct (locates_unique _ _ _ _ _ Hloc Hloc') as [-> ->].
    by rewrite issued_app.
  - destruct (locates_unique _ _ _ _ _ Hloc Hloc') as [-> ->].
    by rewrite issued_app.
Qed.

(** When it cannot, nothing goes out and the warehouse is as before. *)
Lemma update_outcome_silent (data : list (string * PyVal)) (msg : string)
    (w : World W) (r : Outcome unit * World W) :
  update_outcome drv pg selected_record data msg w r ->
  (forall c v, ¬ locates drv pg selected_record w c v) ->
  issued (trace r.2) = issued (trace w) ∧ warehouse r.2 = warehouse w.
Proof.
  intros Hout Hno.
  destruct Hout as [e _ | c' v' e Hloc' _ | c' v' wh' Hloc' _]; simpl.
  - rewrite issued_app. simpl. by rewrite app_nil_r.
  - by destruct (Hno c' v').
  - by destruct (Hno c' v').
Qed.

Lemma checker_form_approve (edited_size edited_gender checker_comments : string)
    (w : World W) :
  checker_form drv pg selected_record edited_size edited_gender checker_comments
    true false w
  = approve_handler drv pg selected_record edited_size edited_gender
      checker_comments w.
Proof.
  unfold checker_form, mbind, script_bind, mret, script_ret.
  by destruct (approve_handler _ _ _ _ _ _ w) as [[[]|e|] w'].
Qed.

Lemma checker_form_reject (edited_size edited_gender checker_comments : string)
    (w : World W) :
  checker_form drv pg selected_record edited_size edited_gender checker_comments
    false true w
  = reject_handler drv pg selected_record checker_comments w.
Proof. reflexivity. Qed.

Lemma approve_handler_outcome (edited_size edited_gender checker_comments : string)
    (w : World W) :
  update_outcome drv pg selected_record
    (approve_update_data pg edited_size edited_gender checker_comments)
    "Review APPROVED!" w
    (approve_handler drv pg selected_record edited_size edited_gender
       checker_comments w).
Proof. apply guarded_update_outcome. Qed.

(** C1. A maker submission with an empty size or an empty gender only
    shows the validation error: no statement is sent and the warehouse
    is untouched.  With both values non-empty the handler runs the
    guarded update whose mapping sets the two pending fields,
    review_status = PENDING, reviewed_by_maker and reviewed_date_maker,
    and that UPDATE is the one statement sent whenever the row can be
    addressed. *)
Theorem maker_form_validates_before_write (w : World W)
    (size_value gender_value : string) :
  let r := maker_form drv pg selected_record size_value gender_value true w in
  (size_value = "" ∨ gender_value = "" ->
     r = (Returns tt,
          {| warehouse := warehouse w;
             trace := trace w ++
               [StError "Please fill in both business size and gender"] |}) ∧
     issued (trace r.2) = issued (trace w) ∧
     warehouse r.2 = warehouse w) ∧
  (size_value ≠ "" -> gender_value ≠ "" ->
     update_outcome drv pg selected_record
       (maker_update_data pg size_value gender_value)
       "Submitted for checker approval!" w r ∧
     set_clauses (maker_update_data pg size_value gender_value)
     = [ "business_reviewed_size_pending = '" +:+ replace_quote size_value +:+ "'";
         "business_reviewed_gender_pending = '" +:+ replace_quote gender_value +:+ "'";
         "review_status = 'PENDING'";
         set_clause_of "reviewed_by_maker" (PStr (current_user pg));
         set_clause_of "reviewed_date_maker" (PStr (manila_timestamp pg)) ] ∧
     forall c v, locates drv pg selected_record w c v ->
       issued (trace r.2)
       = issued (trace w) ++
         [(update_query (TABLE_NAME pg)
             (maker_update_data pg size_value gender_value)
             (where_clause_of c v), None)]).
Proof.
  intros r. split.
  - intros Hempty.
    assert (r = (Returns tt,
                 {| warehouse := warehouse w;
                    trace := trace w ++
                      [StError "Please fill in both business size and gender"] |}))
      as ->.
    { subst r. unfold maker_form.
      destruct Hempty as [-> | ->]; simpl; [reflexivity|].
      by rewrite orb_true_r. }
    simpl. rewrite issued_app. simpl. by rewrite app_nil_r.
  - intros Hsize Hgender.
    assert (update_outcome drv pg selected_record
              (maker_update_data pg size_value gender_value)
              "Submitted for checker approval!" w r) as Hout.
    { subst r. unfold maker_form.
      destruct size_value; [done|]. destruct gender_value; [done|].
      apply guarded_update_outcome. }
    split; [exact Hout | split].
    + destruct size_value; [done|]. by destruct gender_value.
    + intros c v Hloc. exact (update_outcome_issued _ _ _ _ _ _ Hout Hloc).
Qed.

(** C2. A rejection with empty comments only shows the validation
    error and sends nothing.  With comments, the handler runs the
    guarded update whose mapping assigns review_status = REJECTED,
    reviewed_by_checker, reviewed_date_checker and checker_comments and
    no other column, so neither business_reviewed_size nor
    business_reviewed_gender is assigned; that UPDATE is the one
    statement sent whenever the row can be addressed.  On the pending
    tab the form is reached only with a record whose cached
    review_status is PENDING. *)
Theorem rejection_requires_comments (w : World W)
    (edited_size edited_gender checker_comments : string) :
  let r := checker_form drv pg selected_record edited_size edited_gender
             checker_comments false true w in
  (checker_comments = "" ->
     r = (Returns tt,
          {| warehouse := warehouse w;
             trace := trace w ++
               [StError "Please provide comments when rejecting"] |}) ∧
     issued (trace r.2) = issued (trace w) ∧
     warehouse r.2 = warehouse w) ∧
  (checker_comments ≠ "" ->
     update_outcome drv pg selected_record
       (reject_update_data pg checker_comments) "Review REJECTED!" w r ∧
     map fst (reject_update_data pg checker_comments)
     = ["review_status"; "reviewed_by_checker"; "reviewed_date_checker";
        "checker_comments"] ∧
     ("business_reviewed_size" ∉ map fst (reject_update_data pg checker_comments)) ∧
     ("business_reviewed_gender" ∉ map fst (reject_update_data pg checker_comments)) ∧
     set_clauses (reject_update_data pg checker_comments)
     = [ "review_status = 'REJECTED'";
         set_clause_of "reviewed_by_checker" (PStr (current_user pg));
         set_clause_of "reviewed_date_checker" (PStr (manila_timestamp pg));
         "checker_comments = '" +:+ replace_quote checker_comments +:+ "'" ] ∧
     forall c v, locates drv pg selected_record w c v ->
       issued (trace r.2)
       = issued (trace w) ++
         [(update_query (TABLE_NAME pg)
             (reject_update_data pg checker_comments)
             (where_clause_of c v), None)]) ∧
  (forall (table_data : DataFrame) (selected_option : nat) (w' : World W),
     let r' := checker_pending_tab drv pg table_data selected_option
                 edited_size edited_gender checker_comments false true w' in
     (exists pending_reviews picked,
        df_where_eq table_data "review_status" STATUS_PENDING
        = Some pending_reviews ∧
        df_iloc pending_reviews (selected_option - 1) = Some picked ∧
        series_get "review_status" picked = Some (PStr STATUS_PENDING) ∧
        r' = checker_form drv pg picked edited_size edited_gender
               checker_comments false true
               {| warehouse := warehouse w';
                  trace := trace w' ++
                    [StInfo (pretty (length (df_rows pending_reviews))
                             +:+ " pending review(s)")] |}) ∨
     (issued (trace r'.2) = issued (trace w') ∧ warehouse r'.2 = warehouse w')).
Proof.
  intros r. subst r. rewrite checker_form_reject. split; [|split].
  3:{ intros. apply pending_tab_runs_form. }
  - intros ->. unfold reject_handler. simpl.
    repeat split. rewrite issued_app. simpl. by rewrite app_nil_r.
  - intros Hc.
    assert (update_outcome drv pg selected_record
              (reject_update_data pg checker_comments) "Review REJECTED!" w
              (reject_handler drv pg selected_record checker_comments w)) as Hout.
    { unfold reject_handler. destruct checker_comments; [done|].
      apply guarded_update_outcome. }
    split; [exact Hout|]. split; [reflexivity|].
    split; [|split; [|split]].
    + simpl. not_listed.
    + simpl. not_listed.
    + by destruct checker_comments.
    + intros c v Hloc. exact (update_outcome_issued _ _ _ _ _ _ Hout Hloc).
Qed.

End Handlers.

Lemma maker_form_validates_before_write_witness :
  issued (trace (maker_form recording sample_page sample_record
                   "" "MALE" true (fresh [])).2) = [] ∧
  issued (trace (maker_form recording sample_page sample_record
                   "SMALL" "MALE" true (fresh [])).2)
  = [(update_query (TABLE_NAME sample_page)
        (maker_update_data sample_page "SMALL" "MALE")
        "merchant_id = 'M-002'", None)].
Proof.
  split.
  - destruct (maker_form_validates_before_write recording sample_page
                sample_record (fresh []) "" "MALE") as [Hempty _].
    destruct (Hempty (or_introl eq_refl)) as (_ & Hissued & _).
    exact Hissued.
  - destruct (maker_form_validates_before_write recording sample_page
                sample_record (fresh []) "SMALL" "MALE") as [_ Hfilled].
    destruct Hfilled as (_ & _ & Hissued); [discriminate | discriminate |].
    apply (Hissued "merchant_id" (PStr "M-002")).
    repeat split.
Defined.

Lemma rejection_requires_comments_witness :
  issued (trace (checker_form recording sample_page sample_record
                   "SMALL" "MALE" "" false true (fresh [])).2) = [] ∧
  issued (trace (checker_form recording sample_page sample_record
                   "SMALL" "MALE" "wrong size" false true (fresh [])).2)
  = [(update_query (TABLE_NAME sample_page)
        (reject_update_data sample_page "wrong size")
        "merchant_id = 'M-002'", None)].
Proof.
  split.
  - destruct (rejection_requires_comments recording sample_page
                sample_record (fresh []) "SMALL" "MALE" "") as [Hempty _].
    destruct (Hempty eq_refl) as (_ & Hissued & _).
    exact Hissued.
  - destruct (rejection_requires_comments recording sample_page
                sample_record (fresh []) "SMALL" "MALE" "wrong size") as [_ Hfilled].
    destruct Hfilled as [Hfilled _].
    destruct Hfilled as (_ & _ & _ & _ & _ & Hissued); [discriminate |].
    apply (Hissued "merchant_id" (PStr "M-002")).
    repeat split.
Defined.

Example maker_form_unreachable :
  maker_form unreachable sample_page sample_record "SMALL" "MALE" true (fresh tt)
  = (Returns tt,
     {| warehouse := tt; trace := [StError "Error: connection refused"] |}).
Proof. reflexivity. Qed.

Example maker_form_not_submitted :
  maker_form recording sample_page sample_record "SMALL" "MALE" false (fresh [])
  = (Returns tt, fresh []).
Proof. reflexivity. Qed.

Example pending_tab_placeholder :
  checker_pending_tab recording sample_page sample_table 0
    "SMALL" "MALE" "" true false (fresh [])
  = (Returns tt, {| warehouse := []; trace := [StInfo "1 pending review(s)"] |}).
Proof. vm_compute. reflexivity. Qed.

(** C3, evaluated where it fails.  The approve branch runs the guarded
    update for whatever the two select boxes hold, the empty choice
    included, and the pending tab reaches it only with a record whose
    cached review_status is PENDING; on such a record approved with the
    empty size (an option of the size select box) the statement sent
    sets business_reviewed_size = NULL next to review_status =
    'APPROVED'. *)
Theorem approval_accepts_empty_size :
  (forall {W : Type} (drv : Driver W) (pg : Page) (selected_record : Series)
          (edited_size edited_gender checker_comments : string) (w : World W),
     update_outcome drv pg selected_record
       (approve_update_data pg edited_size edited_gender checker_comments)
       "Review APPROVED!" w
       (checker_form drv pg selected_record edited_size edited_gender
          checker_comments true false w)) ∧
  (forall {W : Type} (drv : Driver W) (pg : Page) (table_data : DataFrame)
          (selected_option : nat)
          (edited_size edited_gender checker_comments : string) (w : World W),
     let r := checker_pending_tab drv pg table_data selected_option
                edited_size edited_gender checker_comments true false w in
     (exists pending_reviews picked,
        df_where_eq table_data "review_status" STATUS_PENDING
        = Some pending_reviews ∧
        df_iloc pending_reviews (selected_option - 1) = Some picked ∧
        series_get "review_status" picked = Some (PStr STATUS_PENDING) ∧
        r = checker_form drv pg picked edited_size edited_gender
              checker_comments true false
              {| warehouse := warehouse w;
                 trace := trace w ++
                   [StInfo (pretty (length (df_rows pending_reviews))
                            +:+ " pending review(s)")] |}) ∨
     (issued (trace r.2) = issued (trace w) ∧ warehouse r.2 = warehouse w)) ∧
  "" ∈ BUSINESS_SIZE_OPTIONS ∧
  "MALE" ∈ GENDER_OPTIONS ∧
  checker_pending_tab recording sample_page sample_table 1
    "" "MALE" "" true false (fresh [])
  = (Reruns,
     {| warehouse :=
          ["UPDATE dg_dev.sandbox.out_merchant_business_size_for_bank SET business_reviewed_size = NULL, business_reviewed_gender = 'MALE', review_status = 'APPROVED', reviewed_by_checker = 'checker@example.com', reviewed_date_checker = '2025-03-01 09:30:00', checker_comments = NULL WHERE merchant_id = 'M-002'"];
        trace :=
          [StInfo "1 pending review(s)";
           Execute "UPDATE dg_dev.sandbox.out_merchant_business_size_for_bank SET business_reviewed_size = NULL, business_reviewed_gender = 'MALE', review_status = 'APPROVED', reviewed_by_checker = 'checker@example.com', reviewed_date_checker = '2025-03-01 09:30:00', checker_comments = NULL WHERE merchant_id = 'M-002'" None;
           StSuccess "Review APPROVED!";
           SetTableDataNone] |}).
Proof.
  split; [|split; [|split; [|split]]].
  - intros. rewrite checker_form_approve. apply approve_handler_outcome.
  - intros. apply pending_tab_runs_form.
  - apply list_elem_of_here.
  - apply list_elem_of_further, list_elem_of_here.
  - vm_compute. reflexivity.
Qed.

(* --------------------------------------------------------------------- *)
(** ** Row writer *)
(* --------------------------------------------------------------------- *)

Lemma param_key_inj (j k : nat) : param_key j = param_key k -> j = k.
Proof.
  unfold param_key. intros H. apply (inj (String.app "p")) in H.
  by apply (inj pretty) in H.
Qed.

Lemma bind_cells_app (vs vs' : list PyVal) (p : nat) (params : Params) :
  bind_cells p (vs ++ vs') params
  = bind_cells (p + length vs) vs' (bind_cells p vs params).
Proof.
  revert p params. induction vs as [|v vs IH]; intros p params; simpl.
  - by rewrite Nat.add_0_r.
  - rewrite IH. f_equal. lia.
Qed.

(** Bindings below the counter are left alone. *)
Lemma bind_cells_lookup_lt (vs : list PyVal) (p k : nat) (params : Params) :
  (k < p)%nat ->
  bind_cells p vs params !! param_key k = params !! param_key k.
Proof.
  revert p params. induction vs as [|v vs IH]; intros p params Hk; simpl.
  - reflexivity.
  - rewrite IH by lia. apply lookup_insert_ne.
    intros Heq. apply param_key_inj in Heq. lia.
Qed.

(** The [i]-th cell bound from counter [p] sits under key [p + i]. *)
Lemma bind_cells_lookup (vs : list PyVal) (p i : nat) (params : Params) (v : PyVal) :
  vs !! i = Some v ->
  bind_cells p vs params !! param_key (p + i) = Some (bound_value v).
Proof.
  revert p i params. induction vs as [|v0 vs IH]; intros p i params Hi.
  - discriminate.
  - destruct i as [|i]; simpl in *.
    + injection Hi as ->. rewrite Nat.add_0_r.
      rewrite bind_cells_lookup_lt by lia. apply lookup_insert_eq.
    + replace (p + S i)%nat with (S p + i)%nat by lia. by apply IH.
Qed.

(** Every key present afterwards was present before or is one of the
    counters used. *)
Lemma bind_cells_keys (vs : list PyVal) (p : nat) (params : Params) (key : string) :
  is_Some (bind_cells p vs params !! key) ->
  is_Some (params !! key) ∨
  exists k, (p <= k < p + length vs)%nat ∧ key = param_key k.
Proof.
  revert p params. induction vs as [|v vs IH]; intros p params Hkey; simpl in *.
  - by left.
  - apply IH in Hkey as [Hkey | (k & Hk & ->)].
    + destruct (decide (param_key p = key)) as [<-|Hne].
      * right. exists p. split; [lia | done].
      * left. by rewrite lookup_insert_ne in Hkey.
    + right. exists k. split; [lia | done].
Qed.

Lemma bind_value_fold (row : list PyVal) (ph : list string) (params : Params)
    (p : nat) :
  fold_left bind_value row (ph, params, p)
  = (ph ++ placeholders p (length row), bind_cells p row params, (p + length row)%nat).
Proof.
  revert ph params p. induction row as [|v row IH]; intros ph params p; simpl.
  - by rewrite app_nil_r, Nat.add_0_r.
  - rewrite IH. unfold placeholders. simpl. rewrite <- app_assoc. simpl.
    do 2 f_equal. lia.
Qed.

Lemma bind_row_fold (rows : list (list PyVal)) (parts : list string)
    (params : Params) (p : nat) :
  fold_left bind_row rows (parts, params, p)
  = (parts ++ value_groups p (map length rows),
     bind_cells p (concat rows) params,
     (p + length (concat rows))%nat).
Proof.
  revert parts params p. induction rows as [|row rows IH]; intros parts params p.
  - simpl. by rewrite app_nil_r, Nat.add_0_r.
  - assert (bind_row (parts, params, p) row
            = (parts ++ ["(" +:+ join "," (placeholders p (length row)) +:+ ")"],
               bind_cells p row params, (p + length row)%nat)) as Hrow.
    { unfold bind_row. by rewrite bind_value_fold. }
    cbn [fold_left map concat value_groups]. rewrite Hrow, IH.
    rewrite bind_cells_app, length_app, <- app_assoc, Nat.add_assoc.
    reflexivity.
Qed.

Lemma bind_rows_closed (rows : list (list PyVal)) :
  bind_rows rows
  = (value_groups 0 (map length rows), bind_cells 0 (concat rows) ∅,
     length (concat rows)).
Proof. unfold bind_rows. by rewrite bind_row_fold. Qed.

Lemma value_groups_length (p : nat) (lens : list nat) :
  length (value_groups p lens) = length lens.
Proof.
  revert p. induction lens as [|n lens IH]; intros p; simpl; [done|].
  by rewrite IH.
Qed.

Example create_sql_sample :
  create_sql sample_upload "dg_dev.sandbox.people"
  = nl +:+ "    CREATE TABLE IF NOT EXISTS dg_dev.sandbox.people (" +:+
    nl +:+ "        `name` STRING, `age` STRING" +:+
    nl +:+ "    ) USING DELTA" +:+
    nl +:+ "    ".
Proof. reflexivity. Qed.

Example insert_sql_sample :
  insert_sql sample_upload "dg_dev.sandbox.people" "append"
  = "INSERT INTO dg_dev.sandbox.people (`name`,`age`) VALUES (:p0,:p1),(:p2,:p3),(:p4,:p5)".
Proof. vm_compute. reflexivity. Qed.

Example insert_params_sample :
  map (fun k => insert_params sample_upload !! param_key k) (seq 0 7)
  = [Some (PStr "Ana"); Some (PStr "34"); Some (PStr "Ben"); Some PNone;
     Some (PStr "Cy"); Some (PStr "41"); None].
Proof. vm_compute. reflexivity. Qed.

(** C6. For a dataframe with at least one row [insert_data_to_table]
    sends exactly one statement: INSERT OVERWRITE in overwrite mode,
    INSERT INTO otherwise, with the table and the backquoted column names
    written into the text and one parenthesised group of markers per row.
    The text is the same for any other data of the same shape, every cell
    is bound under the key of its position, a missing cell (None or NaN)
    as None, and nothing else is bound. *)
Theorem insert_data_to_table_parameterized {W} (drv : Driver W) (df : DataFrame)
    (table_name mode : string) (w : World W) :
  df_rows df ≠ [] ->
  issued (trace (insert_data_to_table drv df table_name mode w).2)
  = issued (trace w) ++ [(insert_sql df table_name mode, Some (insert_params df))] ∧
  insert_sql df table_name mode
  = (if String.eqb mode "overwrite" then "INSERT OVERWRITE " else "INSERT INTO ")
    +:+ table_name +:+ " ("
    +:+ join "," (map (fun col => "`" +:+ col +:+ "`") (df_columns df))
    +:+ ") VALUES "
    +:+ join "," (value_groups 0 (map length (df_rows df))) ∧
  length (value_groups 0 (map length (df_rows df))) = length (df_rows df) ∧
  (forall df' : DataFrame,
     df_dtypes df' = df_dtypes df ->
     map length (df_rows df') = map length (df_rows df) ->
     insert_sql df' table_name mode = insert_sql df table_name mode) ∧
  (forall (k : nat) (v : PyVal),
     concat (df_rows df) !! k = Some v ->
     insert_params df !! param_key k = Some (if isna v then PNone else v)) ∧
  (forall key : string,
     is_Some (insert_params df !! key) ->
     exists k, (k < length (concat (df_rows df)))%nat ∧ key = param_key k).
Proof.
  intros Hrows.
  assert (forall d : DataFrame,
            insert_sql d table_name mode
            = insert_verb mode +:+ table_name +:+ " (" +:+ col_list_sql d
              +:+ ") VALUES "
              +:+ join "," (value_groups 0 (map length (df_rows d)))) as Hsql.
  { intros d. unfold insert_sql. by rewrite bind_rows_closed. }
  assert (insert_params df = bind_cells 0 (concat (df_rows df)) ∅) as Hparams.
  { unfold insert_params. by rewrite bind_rows_closed. }
  repeat split.
  - unfold insert_data_to_table.
    destruct (df_rows df) as [|row rows] eqn:E; [done|].
    unfold execute.
    destruct (cursor_execute drv _ _ (warehouse w)); simpl;
      by rewrite issued_app.
  - apply Hsql.
  - by rewrite value_groups_length, length_map.
  - intros df' Hdtypes Hshape. rewrite !Hsql, Hshape.
    unfold col_list_sql, df_columns. by rewrite Hdtypes.
  - intros k v Hk. rewrite Hparams.
    apply (bind_cells_lookup _ 0 k ∅ v Hk).
  - intros key Hkey. rewrite Hparams in Hkey.
    apply bind_cells_keys in Hkey as [Hkey | (k & Hk & ->)].
    + rewrite lookup_empty in Hkey. by destruct Hkey.
    + exists k. split; [lia | done].
Qed.

Lemma insert_data_to_table_parameterized_witness :
  issued (trace (insert_data_to_table recording sample_upload
                   "dg_dev.sandbox.people" "append" (fresh [])).2)
  = [("INSERT INTO dg_dev.sandbox.people (`name`,`age`) VALUES (:p0,:p1),(:p2,:p3),(:p4,:p5)",
      Some (insert_params sample_upload))] ∧
  insert_params sample_upload !! "p3" = Some PNone.
Proof.
  destruct (insert_data_to_table_parameterized recording sample_upload
              "dg_dev.sandbox.people" "append" (fresh []))
    as (Hissued & _ & _ & _ & Hbound & _); [discriminate|].
  split.
  - exact Hissued.
  - exact (Hbound 3%nat PNaN eq_refl).
Defined.

(* --------------------------------------------------------------------- *)
(** ** Overwrite mode *)
(* --------------------------------------------------------------------- *)

Example overwrite_three_rows :
  issued (trace (overwrite_existing_table
                   (single_table sample_upload "dg_dev.sandbox.people")
                   sample_upload "dg_dev.sandbox.people" (fresh false)).2)
  = [("DESCRIBE TABLE dg_dev.sandbox.people", None);
     (create_sql sample_upload "dg_dev.sandbox.people", None);
     ("INSERT OVERWRITE dg_dev.sandbox.people (`name`,`age`) VALUES (:p0,:p1),(:p2,:p3),(:p4,:p5)",
      Some (insert_params sample_upload))].
Proof. vm_compute. reflexivity. Qed.

(** C7, evaluated where it fails.  With no rows to write
    [insert_data_to_table] returns before building any statement, in
    overwrite mode as in append mode, so the world is left as it was; on
    a header-only upload the overwrite branch sends only its DESCRIBE
    probe and then reports "0 rows written (overwrite mode)". *)
Theorem overwrite_skips_empty_dataset :
  (forall {W : Type} (drv : Driver W) (dtypes : list (string * string))
          (table_name mode : string) (w : World W),
     insert_data_to_table drv {| df_dtypes := dtypes; df_rows := [] |}
       table_name mode w = (Returns tt, w)) ∧
  overwrite_existing_table (single_table header_only_upload "dg_dev.sandbox.people")
    header_only_upload "dg_dev.sandbox.people" (fresh true)
  = (Returns tt,
     {| warehouse := true;
        trace := [Execute "DESCRIBE TABLE dg_dev.sandbox.people" None;
                  StSuccess "0 rows written (overwrite mode)"] |}) ∧
  overwrite_existing_table recording header_only_upload
    "dg_dev.sandbox.people" (fresh ["INSERT INTO dg_dev.sandbox.people VALUES (1),(2)"])
  = (Returns tt,
     {| warehouse := ["INSERT INTO dg_dev.sandbox.people VALUES (1),(2)";
                      "DESCRIBE TABLE dg_dev.sandbox.people"];
        trace := [Execute "DESCRIBE TABLE dg_dev.sandbox.people" None;
                  StSuccess "0 rows written (overwrite mode)"] |}).
Proof.
  split; [reflexivity|]. split; vm_compute; reflexivity.
Qed.

(* --------------------------------------------------------------------- *)
(** ** Table materialization *)
(* --------------------------------------------------------------------- *)

Lemma create_table_run {W} (drv : Driver W) (df : DataFrame) (table_name : string)
    (w : World W) :
  trace (create_table_from_dataframe drv df table_name w).2
  = trace w ++ [Execute (create_sql df table_name) None].
Proof.
  unfold create_table_from_dataframe, execute.
  by destruct (cursor_execute drv _ None (warehouse w)).
Qed.

Section Idempotence.
Context {W : Type} (drv : Driver W) (df : DataFrame) (table_name : string).

(** What IF NOT EXISTS means on the warehouse side for the statement
    the page builds: once the table exists the statement succeeds and
    changes nothing, and after a successful run the table exists. *)
Variable table_present : W -> Prop.
Hypothesis noop_when_present : forall wh,
  table_present wh ->
  cursor_execute drv (create_sql df table_name) None wh = inr wh.
Hypothesis present_after_create : forall wh wh',
  cursor_execute drv (create_sql df table_name) None wh = inr wh' ->
  table_present wh'.

(** C5. [create_table_from_dataframe] always sends the one statement
    CREATE TABLE IF NOT EXISTS <table> (...) USING DELTA whose column
    list quotes each column name in backquotes; on a warehouse that
    honours IF NOT EXISTS, sending it again after a successful first
    call succeeds as well and leaves the warehouse as the first call
    left it, and so does any call made while the table exists. *)
Theorem create_table_idempotent :
  String.prefix (nl +:+ "    CREATE TABLE IF NOT EXISTS " +:+ table_name +:+ " (")
    (create_sql df table_name) = true ∧
  columns_def df
  = map (fun '(col, dtype) => "`" +:+ col +:+ "` " +:+ infer_sql_type dtype)
      (df_dtypes df) ∧
  (forall w : World W,
     issued (trace (create_table_from_dataframe drv df table_name w).2)
     = issued (trace w) ++ [(create_sql df table_name, None)]) ∧
  (forall w w1 : World W,
     create_table_from_dataframe drv df table_name w = (Returns tt, w1) ->
     create_table_from_dataframe drv df table_name w1
     = (Returns tt,
        {| warehouse := warehouse w1;
           trace := trace w1 ++ [Execute (create_sql df table_name) None] |})) ∧
  (forall w : World W,
     table_present (warehouse w) ->
     create_table_from_dataframe drv df table_name w
     = (Returns tt,
        {| warehouse := warehouse w;
           trace := trace w ++ [Execute (create_sql df table_name) None] |})).
Proof.
  assert (forall w : World W,
            table_present (warehouse w) ->
            create_table_from_dataframe drv df table_name w
            = (Returns tt,
               {| warehouse := warehouse w;
                  trace := trace w ++ [Execute (create_sql df table_name) None] |}))
    as Hpresent.
  { intros w Hw. unfold create_table_from_dataframe, execute.
    by rewrite (noop_when_present _ Hw). }
  repeat split.
  - unfold create_sql.
    rewrite <- (string_app_assoc table_name " ("),
            <- (string_app_assoc "    CREATE TABLE IF NOT EXISTS "
                  (table_name +:+ " (")),
            <- (string_app_assoc nl
                  ("    CREATE TABLE IF NOT EXISTS " +:+ table_name +:+ " (")).
    apply prefix_app.
  - intros w. by rewrite create_table_run, issued_app.
  - intros w w1 Hfirst. apply Hpresent.
    unfold create_table_from_dataframe, execute in Hfirst.
    destruct (cursor_execute drv (create_sql df table_name) None (warehouse w))
      as [e|wh'] eqn:Hexec; [discriminate|].
    injection Hfirst as <-. simpl. by apply (present_after_create (warehouse w)).
  - exact Hpresent.
Qed.

End Idempotence.

Lemma create_table_idempotent_witness :
  create_table_from_dataframe (single_table sample_upload "dg_dev.sandbox.people")
    sample_upload "dg_dev.sandbox.people"
    {| warehouse := true;
       trace := [Execute (create_sql sample_upload "dg_dev.sandbox.people") None] |}
  = (Returns tt,
     {| warehouse := true;
        trace := [Execute (create_sql sample_upload "dg_dev.sandbox.people") None;
                  Execute (create_sql sample_upload "dg_dev.sandbox.people") None] |}).
Proof.
  destruct (create_table_idempotent
              (single_table sample_upload "dg_dev.sandbox.people")
              sample_upload "dg_dev.sandbox.people" (fun wh => wh = true))
    as (_ & _ & _ & Hagain & _).
  - intros wh ->. reflexivity.
  - intros wh wh' Hrun. vm_compute in Hrun. by injection Hrun as <-.
  - apply (Hagain (fresh false)). reflexivity.
Defined.

(* --------------------------------------------------------------------- *)
(** ** Identity resolution *)
(* --------------------------------------------------------------------- *)

Example identity_bare_id : get_current_user_email bare_id_sources = "7340219".
Proof. reflexivity. Qed.
Example identity_claim : get_current_user_email email_sources = "ana@example.com".
Proof. reflexivity. Qed.
Example identity_sentinel : get_current_user_email no_sources = "unknown@databricks.com".
Proof. reflexivity. Qed.

Lemma email_shaped_at (x : option string) :
  email_shaped x = true -> str_in "@" (default "" x) = true.
Proof.
  destruct x as [s|]; simpl; [|discriminate].
  by intros [_ H]%andb_true_iff.
Qed.

Lemma from_sql_at (src : IdentitySources) (s : string) :
  from_sql src = Some s -> str_in "@" s = true.
Proof.
  unfold from_sql. intros H.
  repeat case_match; simplify_eq.
  match goal with H : _ && _ = true |- _ => by apply andb_true_iff in H as [_ ?] end.
Qed.

Lemma from_streamlit_at (src : IdentitySources) (s : string) :
  from_streamlit src = Some s -> str_in "@" s = true.
Proof.
  unfold from_streamlit. intros H.
  repeat case_match; simplify_eq.
  match goal with
  | H : email_shaped ?x = true, E : ?x = Some s |- _ =>
      apply email_shaped_at in H; by rewrite E in H
  end.
Qed.

Lemma from_workspace_at (me : WorkspaceUser) :
  email_shaped (user_name me) = true ∨
  email_shaped (first_email me) = true ∨
  email_shaped (display_name me) = true ->
  str_in "@" (from_workspace me) = true.
Proof.
  unfold from_workspace. intros H.
  destruct (email_shaped (user_name me)) eqn:E1; [by apply email_shaped_at|].
  destruct (email_shaped (first_email me)) eqn:E2; [by apply email_shaped_at|].
  destruct (email_shaped (display_name me)) eqn:E3; [by apply email_shaped_at|].
  by destruct H as [?|[?|?]].
Qed.

(** C9.  Whenever a source supplies an e-mail-shaped value the function
    returns a string with an "@"; when none does and the workspace user
    has an id, it returns that id; and the [except] branch that returns
    "unknown@databricks.com" is taken exactly when every method fails,
    any other run returning what a source supplied. *)
Theorem identity_resolution (src : IdentitySources) :
  (supplies_email src -> str_in "@" (get_current_user_email src) = true) ∧
  (¬ supplies_email src ->
   forall me i, workspace_me src = inr me -> id me = Some i -> i ≠ "" ->
     get_current_user_email src = i) ∧
  ((exists e, identity_body src = inl e) <-> every_method_fails src) ∧
  (every_method_fails src -> get_current_user_email src = "unknown@databricks.com") ∧
  (forall user, identity_body src = inr user ->
     get_current_user_email src = user ∧
     (from_sql src = Some user ∨ from_streamlit src = Some user ∨
      exists me, workspace_me src = inr me ∧ from_workspace me = user)).
Proof.
  unfold get_current_user_email, identity_body, every_method_fails.
  split; [|split; [|split; [|split]]].
  - intros Hsup.
    destruct (from_sql src) as [s|] eqn:Hsql; [by apply (from_sql_at src)|].
    destruct (from_streamlit src) as [s|] eqn:Hst; [by apply (from_streamlit_at src)|].
    destruct (workspace_me src) as [e|me] eqn:Hme; [reflexivity|].
    apply from_workspace_at.
    unfold supplies_email in Hsup. rewrite Hsql, Hst, Hme in Hsup.
    destruct Hsup as [[? [=]]|[[? [=]]|(me' & [= <-] & H)]]. exact H.
  - intros Hno me i Hme Hid Hi.
    destruct (from_sql src) eqn:Hsql.
    { destruct Hno. left. by rewrite Hsql. }
    destruct (from_streamlit src) eqn:Hst.
    { destruct Hno. right; left. by rewrite Hst. }
    rewrite Hme. unfold from_workspace.
    destruct (email_shaped (user_name me)) eqn:E1.
    { destruct Hno. right; right. exists me. auto. }
    destruct (email_shaped (first_email me)) eqn:E2.
    { destruct Hno. right; right. exists me. auto. }
    destruct (email_shaped (display_name me)) eqn:E3.
    { destruct Hno. right; right. exists me. auto. }
    rewrite Hid. destruct i; [done | reflexivity].
  - destruct (from_sql src) as [s|].
    { split; [intros [e [=]] | intros ([=] & _)]. }
    destruct (from_streamlit src) as [s|].
    { split; [intros [e [=]] | intros (_ & [=] & _)]. }
    destruct (workspace_me src) as [e|me].
    + split; intros _; eauto.
    + split; [intros [e [=]] | intros (_ & _ & e & [=])].
  - intros (-> & -> & e & ->). reflexivity.
  - intros user.
    destruct (from_sql src); [|destruct (from_streamlit src);
      [|destruct (workspace_me src) as [e|me]]]; intros [= <-]; eauto 6.
Qed.

Lemma identity_resolution_witness :
  str_in "@" (get_current_user_email email_sources) = true ∧
  get_current_user_email bare_id_sources = "7340219" ∧
  get_current_user_email no_sources = "unknown@databricks.com".
Proof.
  split; [|split].
  - destruct (identity_resolution email_sources) as [Hat _].
    apply Hat. right; left. by eexists.
  - destruct (identity_resolution bare_id_sources) as (_ & Hid & _).
    apply (Hid ltac:(intros [[? [=]]|[[? [=]]|(me & [= <-] & [[=]|[[=]|[=]]])]])
             _ "7340219" eq_refl eq_refl).
    discriminate.
  - destruct (identity_resolution no_sources) as (_ & _ & _ & Hfail & _).
    apply Hfail. repeat split. by eexists.
Defined.

(* ===================================================================== *)
(** * Further properties of the two pages *)
(* ===================================================================== *)

(* --------------------------------------------------------------------- *)
(** ** Quoting and row addressing *)
(* --------------------------------------------------------------------- *)

Lemma string_length_app (a b : string) :
  String.length (a +:+ b) = (String.length a + String.length b)%nat.
Proof.
  induction a as [|c a IH]; [reflexivity|].
  rewrite string_app_cons. simpl. by rewrite IH.
Qed.

Lemma string_app_inj_r (a b c : string) : a +:+ c = b +:+ c -> a = b.
Proof.
  revert b. induction a as [|x a IH]; intros [|y b] H.
  - reflexivity.
  - apply (f_equal String.length) in H.
    rewrite !string_length_app in H. simpl in H. lia.
  - apply (f_equal String.length) in H.
    rewrite !string_length_app in H. simpl in H. lia.
  - rewrite !string_app_cons in H. injection H as -> H. f_equal. by apply IH.
Qed.

Lemma replace_quote_inj (s1 s2 : string) :
  replace_quote s1 = replace_quote s2 -> s1 = s2.
Proof.
  revert s2. induction s1 as [|c1 s1 IH]; intros [|c2 s2] H; simpl in H.
  - reflexivity.
  - destruct (Ascii.eqb c2 "'"); discriminate.
  - destruct (Ascii.eqb c1 "'"); discriminate.
  - destruct (Ascii.eqb c1 "'") eqn:E1, (Ascii.eqb c2 "'") eqn:E2.
    + apply Ascii.eqb_eq in E1, E2. subst. injection H as H. f_equal. by apply IH.
    + injection H as <- _. by rewrite Ascii.eqb_refl in E2.
    + injection H as -> _. by rewrite Ascii.eqb_refl in E1.
    + injection H as -> H. f_equal. by apply IH.
Qed.

(** X1. Two different string keys never give the same WHERE predicate:
    the quoting of [where_clause_of] loses nothing of the value. *)
Theorem where_clause_keeps_string_keys_apart (first_col s1 s2 : string) :
  s1 ≠ s2 ->
  where_clause_of first_col (PStr s1) ≠ where_clause_of first_col (PStr s2).
Proof.
  unfold where_clause_of. intros Hne H. apply Hne.
  apply (inj (String.app first_col)) in H.
  apply (inj (String.app " = '")) in H.
  apply string_app_inj_r in H. by apply replace_quote_inj.
Qed.

Lemma where_clause_keeps_string_keys_apart_witness :
  where_clause_of "name" (PStr "a'b") ≠ where_clause_of "name" (PStr "a''b").
Proof.
  apply (where_clause_keeps_string_keys_apart "name" "a'b" "a''b").
  discriminate.
Defined.

Section Addressing.
Context {W : Type} (drv : Driver W) (pg : Page).

Lemma target_where_clause_key_only (rec1 rec2 : Series) (w : World W) :
  (forall first_col, head (map fst (table_schema pg)) = Some first_col ->
     series_get first_col rec1 = series_get first_col rec2) ->
  target_where_clause drv pg rec1 w = target_where_clause drv pg rec2 w.
Proof.
  intros Hkey. unfold target_where_clause, mbind, script_bind.
  destruct (connect drv w) as [[[]|e|] w']; try reflexivity.
  destruct (map fst (table_schema pg)) as [|first_col cols]; [reflexivity|].
  by rewrite (Hkey first_col eq_refl).
Qed.

(** X2. The forms address the row by its first-column cell alone: two
    selected records that agree on that cell lead to the very same run
    (same statement, same messages), whatever their other cells, the
    cached review_status included. *)
Theorem forms_address_by_first_column_only (rec1 rec2 : Series)
    (size_value gender_value checker_comments : string)
    (submit_btn approve_btn reject_btn : bool) (w : World W) :
  (forall first_col, head (map fst (table_schema pg)) = Some first_col ->
     series_get first_col rec1 = series_get first_col rec2) ->
  maker_form drv pg rec1 size_value gender_value submit_btn w
  = maker_form drv pg rec2 size_value gender_value submit_btn w ∧
  checker_form drv pg rec1 size_value gender_value checker_comments
    approve_btn reject_btn w
  = checker_form drv pg rec2 size_value gender_value checker_comments
      approve_btn reject_btn w.
Proof.
  intros Hkey.
  assert (forall w', target_where_clause drv pg rec1 w'
                     = target_where_clause drv pg rec2 w') as Heq.
  { intros w'. by apply target_where_clause_key_only. }
  split.
  - unfold maker_form. destruct submit_btn; [|reflexivity].
    destruct (_ || _); [reflexivity|].
    unfold try_except, mbind, script_bind. by rewrite Heq.
  - unfold checker_form, approve_handler, reject_handler.
    unfold try_except, mbind, script_bind.
    destruct approve_btn, reject_btn; rewrite ?Heq;
      repeat (match goal with
              | |- context [target_where_clause drv pg rec2 ?x] =>
                  destruct (target_where_clause drv pg rec2 x) as [[?|?|] ?]
              | |- context [if ?b then _ else _] => destruct b
              | |- context [match ?m with _ => _ end] => destruct m
              end; simpl; rewrite ?Heq; try reflexivity).
Qed.

End Addressing.

Lemma forms_address_by_first_column_only_witness :
  maker_form recording sample_page sample_record "SMALL" "MALE" true (fresh [])
  = maker_form recording sample_page sample_record_approved "SMALL" "MALE" true (fresh []).
Proof.
  apply (forms_address_by_first_column_only recording sample_page
           sample_record sample_record_approved "SMALL" "MALE" "" true false false
           (fresh [])).
  intros first_col [= <-]. reflexivity.
Defined.

(* --------------------------------------------------------------------- *)
(** ** What the forms never do *)
(* --------------------------------------------------------------------- *)

Lemma update_outcome_caught {W} (drv : Driver W) (pg : Page) (selected_record : Series)
    (data : list (string * PyVal)) (msg : string) (w : World W)
    (r : Outcome unit * World W) :
  update_outcome drv pg selected_record data msg w r ->
  r.1 = Returns tt ∨ r.1 = Reruns.
Proof. intros [e _ | c v e _ _ | c v wh' _ _]; simpl; auto. Qed.

Lemma approve_handler_caught {W} (drv : Driver W) (pg : Page) (selected_record : Series)
    (edited_size edited_gender checker_comments : string) (w : World W) :
  let r := approve_handler drv pg selected_record edited_size edited_gender
             checker_comments w in
  r.1 = Returns tt ∨ r.1 = Reruns.
Proof.
  unfold approve_handler. eapply update_outcome_caught.
  apply guarded_update_outcome.
Qed.

Lemma reject_handler_caught {W} (drv : Driver W) (pg : Page) (selected_record : Series)
    (checker_comments : string) (w : World W) :
  let r := reject_handler drv pg selected_record checker_comments w in
  r.1 = Returns tt ∨ r.1 = Reruns.
Proof.
  unfold reject_handler. destruct (negb _); [by left|].
  eapply update_outcome_caught. apply guarded_update_outcome.
Qed.

(** X3. No exception escapes the maker form or the checker form: a run
    ends by falling through or by the rerun that follows an accepted
    update, whatever the warehouse answers and whatever the schema and
    the selected record hold. *)
Theorem forms_let_no_exception_escape {W} (drv : Driver W) (pg : Page)
    (selected_record : Series) (size_value gender_value checker_comments : string)
    (submit_btn approve_btn reject_btn : bool) (w : World W) (e : exn) :
  (maker_form drv pg selected_record size_value gender_value submit_btn w).1
  ≠ Raises e ∧
  (checker_form drv pg selected_record size_value gender_value checker_comments
     approve_btn reject_btn w).1 ≠ Raises e.
Proof.
  split.
  - unfold maker_form. destruct submit_btn; [|discriminate].
    destruct (_ || _); [discriminate|].
    destruct (update_outcome_caught _ _ _ _ _ _ _
                (guarded_update_outcome drv pg selected_record
                   (maker_update_data pg size_value gender_value)
                   "Submitted for checker approval!" w)) as [-> | ->];
      discriminate.
  - unfold checker_form, mbind, script_bind.
    destruct approve_btn.
    + pose proof (approve_handler_caught drv pg selected_record size_value
                    gender_value checker_comments w) as Ha. simpl in Ha.
      destruct (approve_handler _ _ _ _ _ _ w) as [[[]|e'|] w']; simpl in *.
      * destruct reject_btn; [|discriminate].
        destruct (reject_handler_caught drv pg selected_record checker_comments w')
          as [-> | ->]; discriminate.
      * by destruct Ha.
      * discriminate.
    + simpl. destruct reject_btn; [|discriminate].
      destruct (reject_handler_caught drv pg selected_record checker_comments w)
        as [-> | ->]; discriminate.
Qed.



(* --------------------------------------------------------------------- *)
(** ** Row writer: markers and bindings *)
(* --------------------------------------------------------------------- *)

(** Binding [vs] from counter [p] adds exactly one entry per cell when
    no key from [p] on is taken yet. *)
Lemma bind_cells_size (vs : list PyVal) (p : nat) (params : Params) :
  (forall k, (p <= k)%nat -> params !! param_key k = None) ->
  size (bind_cells p vs params) = (size params + length vs)%nat.
Proof.
  revert p params. induction vs as [|v vs IH]; intros p params Hfree; simpl.
  - lia.
  - rewrite IH.
    + rewrite map_size_insert_None by (apply Hfree; lia). lia.
    + intros k Hk. rewrite lookup_insert_ne.
      * apply Hfree. lia.
      * intros Heq. apply param_key_inj in Heq. lia.
Qed.

(** The marker lists behind the groups of [value_groups]. *)
Lemma value_groups_markers (p : nat) (lens : list nat) :
  exists phs : list (list string),
    value_groups p lens = map (fun ph => "(" +:+ join "," ph +:+ ")") phs ∧
    map length phs = lens ∧
    concat phs = placeholders p (sum_list lens).
Proof.
  revert p. induction lens as [|n lens IH]; intros p.
  - by exists [].
  - destruct (IH (p + n)%nat) as (phs & Hg & Hl & Hc).
    exists (placeholders p n :: phs). simpl. rewrite Hg, Hl, Hc.
    repeat split.
    + unfold placeholders. by rewrite length_map, length_seq.
    + unfold placeholders. by rewrite <- map_app, <- seq_app.
Qed.

Lemma sum_list_lengths (rows : list (list PyVal)) :
  sum_list (map length rows) = length (concat rows).
Proof.
  induction rows as [|row rows IH]; simpl; [done|].
  by rewrite length_app, IH.
Qed.

(** X4. In the INSERT text the markers are numbered [:p0], [:p1], ...
    without gap or repeat, row after row, one per cell; the bindings
    hold exactly one value for each of them and nothing else. *)
Theorem insert_markers_match_bindings (df : DataFrame) :
  let cells := length (concat (df_rows df)) in
  (exists phs : list (list string),
     (bind_rows (df_rows df)).1.1
     = map (fun ph => "(" +:+ join "," ph +:+ ")") phs ∧
     map length phs = map length (df_rows df) ∧
     concat phs = map (fun k => ":" +:+ param_key k) (seq 0 cells)) ∧
  size (insert_params df) = cells ∧
  (forall key : string,
     is_Some (insert_params df !! key) <->
     exists k, (k < cells)%nat ∧ key = param_key k).
Proof.
  intros cells. subst cells. unfold insert_params.
  rewrite bind_rows_closed. simpl. split; [|split].
  - destruct (value_groups_markers 0 (map length (df_rows df)))
      as (phs & Hg & Hl & Hc).
    exists phs. rewrite Hg, Hl, Hc, sum_list_lengths. done.
  - rewrite bind_cells_size; [by rewrite map_size_empty|].
    intros k _. apply lookup_empty.
  - intros key. split.
    + intros Hkey. apply bind_cells_keys in Hkey as [Hkey | (k & Hk & ->)].
      * rewrite lookup_empty in Hkey. by destruct Hkey.
      * exists k. split; [lia | done].
    + intros (k & Hk & ->).
      destruct (lookup_lt_is_Some_2 (concat (df_rows df)) k Hk) as [v Hv].
      rewrite (bind_cells_lookup _ 0 k ∅ v Hv). by eexists.
Qed.

(* --------------------------------------------------------------------- *)
(** ** Upload modes *)
(* --------------------------------------------------------------------- *)

Ltac run_branch :=
  unfold write_table, create_new_table, append_to_existing_table,
    overwrite_existing_table, table_exists, create_table_from_dataframe,
    insert_data_to_table;
  run_script.

Ltac split_on_warehouse :=
  repeat match goal with
         | |- context [cursor_execute ?drv ?op ?ps ?wh] =>
             let E := fresh "Hexec" in
             destruct (cursor_execute drv op ps wh) eqn:E; simpl
         end.

(** A branch sends the statements of its plan in order and stops at the
    first one the warehouse refuses; when it falls through, the whole
    plan went out. *)
Lemma write_table_plan {W} (drv : Driver W) (df_to_upload : DataFrame)
    (target_table upload_mode : string) (w : World W) :
  let r := write_table drv df_to_upload target_table upload_mode w in
  let present := accepts drv ("DESCRIBE TABLE " +:+ target_table) (warehouse w) in
  let plan := planned_statements present df_to_upload target_table upload_mode in
  exists sent,
    issued (trace r.2) = issued (trace w) ++ sent ∧
    sent `prefix_of` plan ∧
    (r.1 = Returns tt -> sent = plan) ∧
    r.1 ≠ Reruns.
Proof.
  intros r present plan. subst r present plan.
  unfold planned_statements, accepts. run_branch.
  destruct (String.eqb upload_mode "Create New Table");
    [|destruct (String.eqb upload_mode "Append to Existing Table")];
    destruct (df_rows df_to_upload) as [|row rows] eqn:Hrows; simpl;
    split_on_warehouse;
    rewrite ?issued_app; simpl; rewrite <- ?app_assoc; simpl;
    (eexists; split; [reflexivity|]);
    (split; [repeat first [apply prefix_nil | apply prefix_cons]
            |split; [try done | done]]).
Qed.

(** X6. The two mode guards: "Create New Table" on a table the DESCRIBE
    probe finds, and "Append to Existing Table" on one it does not find,
    send nothing but the probe and end with the error that names the
    other modes; no CREATE and no INSERT goes out. *)
Theorem wrong_mode_sends_only_the_probe {W} (drv : Driver W)
    (df_to_upload : DataFrame) (target_table : string) (w : World W) :
  let probe := "DESCRIBE TABLE " +:+ target_table in
  (forall wh', cursor_execute drv probe None (warehouse w) = inr wh' ->
     write_table drv df_to_upload target_table "Create New Table" w
     = (Returns tt,
        {| warehouse := wh';
           trace := trace w ++
             [Execute probe None;
              StError ("Table `" +:+ target_table
                       +:+ "` already exists. Choose 'Append' or 'Overwrite' mode.")] |})) ∧
  (forall e, cursor_execute drv probe None (warehouse w) = inl e ->
     write_table drv df_to_upload target_table "Append to Existing Table" w
     = (Returns tt,
        {| warehouse := warehouse w;
           trace := trace w ++
             [Execute probe None;
              StError ("Table `" +:+ target_table
                       +:+ "` does not exist. Choose 'Create New Table' mode.")] |})).
Proof.
  intros probe. subst probe. split.
  - intros wh' Hprobe. run_branch. rewrite Hprobe. simpl.
    by rewrite <- app_assoc.
  - intros e Hprobe. run_branch. rewrite Hprobe. simpl.
    by rewrite <- app_assoc.
Qed.

Lemma wrong_mode_sends_only_the_probe_witness :
  issued (trace (write_table (single_table sample_upload "dg_dev.sandbox.people")
                   sample_upload "dg_dev.sandbox.people" "Create New Table"
                   (fresh true)).2)
  = [("DESCRIBE TABLE dg_dev.sandbox.people", None)] ∧
  issued (trace (write_table (single_table sample_upload "dg_dev.sandbox.people")
                   sample_upload "dg_dev.sandbox.people" "Append to Existing Table"
                   (fresh false)).2)
  = [("DESCRIBE TABLE dg_dev.sandbox.people", None)].
Proof.
  split.
  - destruct (wrong_mode_sends_only_the_probe
                (single_table sample_upload "dg_dev.sandbox.people")
                sample_upload "dg_dev.sandbox.people" (fresh true)) as [Hcreate _].
    by rewrite (Hcreate true eq_refl).
  - destruct (wrong_mode_sends_only_the_probe
                (single_table sample_upload "dg_dev.sandbox.people")
                sample_upload "dg_dev.sandbox.people" (fresh false)) as [_ Happend].
    by rewrite (Happend (Exception "TABLE_OR_VIEW_NOT_FOUND") eq_refl).
Defined.

(* --------------------------------------------------------------------- *)
(** ** The upload button *)
(* --------------------------------------------------------------------- *)

(** The backup either raises and leaves the world as it was, or returns
    the path it wrote to; it shows nothing. *)
Lemma upload_csv_to_volume_cases {W} (files_upload : string -> W -> exn + W)
    (name timestamp volume_path : string) (w : World W) :
  (exists e, upload_csv_to_volume files_upload name timestamp volume_path w
             = (Raises e, w)) ∨
  (exists path wh',
     volume_file_path name timestamp volume_path = inr path ∧
     files_upload path (warehouse w) = inr wh' ∧
     upload_csv_to_volume files_upload name timestamp volume_path w
     = (Returns path, {| warehouse := wh'; trace := trace w |})).
Proof.
  unfold upload_csv_to_volume.
  destruct (volume_file_path name timestamp volume_path) as [e|path]; [eauto|].
  destruct (files_upload path (warehouse w)) as [e|wh'] eqn:Hput; [eauto|].
  right. eauto.
Qed.

Lemma upload_button_after_backup {W} (drv : Driver W)
    (files_upload : string -> W -> exn + W) (form : UploadForm) (w w1 : World W)
    (path : string) :
  target_table form ≠ "" ->
  upload_csv_to_volume files_upload (file_name form) (file_timestamp form)
    UPLOAD_VOLUME w = (Returns path, w1) ->
  upload_button drv files_upload form w
  = try_except
      (connect drv;;
       write_table drv (df_to_upload_of form) (target_table form) (upload_mode form))
      (fun e => st_error ("Error during upload: " +:+ exn_str e))
      {| warehouse := warehouse w1;
         trace := trace w1 ++ [StSuccess ("CSV uploaded to: `" +:+ path +:+ "`")] |}.
Proof.
  intros Htarget Hput. unfold upload_button.
  destruct (target_table form) as [|c t]; [done|]. simpl.
  unfold try_except, mbind, script_bind. rewrite Hput. reflexivity.
Qed.

Lemma upload_button_backup_failed {W} (drv : Driver W)
    (files_upload : string -> W -> exn + W) (form : UploadForm) (w w1 : World W)
    (e : exn) :
  target_table form ≠ "" ->
  upload_csv_to_volume files_upload (file_name form) (file_timestamp form)
    UPLOAD_VOLUME w = (Raises e, w1) ->
  upload_button drv files_upload form w
  = (Returns tt,
     {| warehouse := warehouse w1;
        trace := trace w1 ++ [StError ("Error during upload: " +:+ exn_str e)] |}).
Proof.
  intros Htarget Hput. unfold upload_button.
  destruct (target_table form) as [|c t]; [done|]. simpl.
  unfold try_except, mbind, script_bind. rewrite Hput. reflexivity.
Qed.

(** X7. The upload button never lets an exception out and never reruns.
    With an empty table name it only shows the validation error; when
    the backup to the volume fails it shows the error, and the world is
    as before: no statement went to the warehouse.  When the backup
    succeeds and the connection then fails, the file stays in the volume
    and still no statement goes out. *)
Theorem upload_button_stops_before_the_warehouse {W} (drv : Driver W)
    (files_upload : string -> W -> exn + W) (form : UploadForm) (w : World W) :
  let r := upload_button drv files_upload form w in
  let backup := upload_csv_to_volume files_upload (file_name form)
                  (file_timestamp form) UPLOAD_VOLUME w in
  r.1 = Returns tt ∧
  (target_table form = "" ->
     r = (Returns tt,
          {| warehouse := warehouse w;
             trace := trace w ++ [StError "Please specify a target table name"] |})) ∧
  (target_table form ≠ "" ->
     forall e, backup.1 = Raises e ->
       r = (Returns tt,
            {| warehouse := warehouse w;
               trace := trace w ++ [StError ("Error during upload: " +:+ exn_str e)] |})) ∧
  (target_table form ≠ "" ->
     forall path e, backup.1 = Returns path ->
       get_connection drv (warehouse backup.2) = inl e ->
       r = (Returns tt,
            {| warehouse := warehouse backup.2;
               trace := trace w ++
                 [StSuccess ("CSV uploaded to: `" +:+ path +:+ "`");
                  StError ("Error during upload: " +:+ exn_str e)] |})).
Proof.
  intros r backup. subst r backup.
  destruct (decide (target_table form = "")) as [Hempty|Htarget].
  { unfold upload_button. rewrite Hempty. simpl. repeat split; intros; done. }
  destruct (upload_csv_to_volume_cases files_upload (file_name form)
              (file_timestamp form) UPLOAD_VOLUME w)
    as [(e & Hput) | (path & wh' & _ & _ & Hput)].
  - rewrite (upload_button_backup_failed drv _ _ _ _ _ Htarget Hput), Hput. simpl.
    repeat split; try done.
    intros _ e' [= <-]. reflexivity.
  - rewrite (upload_button_after_backup drv _ _ _ _ _ Htarget Hput), Hput. simpl.
    unfold try_except, mbind, script_bind, connect. simpl.
    destruct (get_connection drv wh') as [e|[]] eqn:Hconn; simpl.
    + repeat split; try done.
      intros _ path' e' [= <-] [= <-]. unfold st_error, emit. simpl.
      by rewrite <- app_assoc.
    + pose proof (write_table_plan drv (df_to_upload_of form)
                    (target_table form) (upload_mode form)
                    {| warehouse := wh';
                       trace := trace w ++
                         [StSuccess ("CSV uploaded to: `" +:+ path +:+ "`")] |})
        as (sent & _ & _ & _ & Hnorerun).
      simpl in Hnorerun.
      destruct (write_table drv _ (target_table form) (upload_mode form) _)
        as [[[]|e|] w'].
      * repeat split; try done.
      * repeat split; try done.
      * done.
Qed.



Lemma upload_button_stops_before_the_warehouse_witness :
  upload_button recording refuse_path sample_form (fresh [])
  = (Returns tt,
     {| warehouse := [];
        trace := [StError "Error during upload: PERMISSION_DENIED"] |}).
Proof.
  destruct (upload_button_stops_before_the_warehouse recording refuse_path
              sample_form (fresh [])) as (_ & _ & Hbackup & _).
  apply (Hbackup ltac:(discriminate) (Exception "PERMISSION_DENIED")).
  reflexivity.
Defined.

(* --------------------------------------------------------------------- *)
(** ** Backup file name and volume path *)
(* --------------------------------------------------------------------- *)

Lemma str_in_dot_cons (c : ascii) (s : string) :
  str_in "." (String c s) = Ascii.eqb c "." || str_in "." s.
Proof.
  change (str_in "." (String c s))
    with (String.prefix "." (String c s) || str_in "." s).
  change (String.prefix "." (String c s))
    with (if ascii_dec "." c then String.prefix "" s else false).
  destruct (ascii_dec "." c) as [<-|Hne].
  - by destruct s.
  - destruct (Ascii.eqb c ".") eqn:E; [|reflexivity].
    apply Ascii.eqb_eq in E. congruence.
Qed.

(** [rsplit] cuts at the last dot: what follows has no dot. *)
Lemma rsplit_dot_spec (s : string) :
  (str_in "." s = false ∧ rsplit_dot s = [s]) ∨
  (str_in "." s = true ∧
   exists before after,
     rsplit_dot s = [before; after] ∧
     s = before +:+ "." +:+ after ∧
     str_in "." after = false).
Proof.
  induction s as [|c s IH]; [by left|].
  rewrite str_in_dot_cons. simpl.
  destruct IH as [[Hno ->] | (Hyes & before & after & -> & Hs & Hafter)].
  - rewrite Hno, orb_false_r.
    destruct (Ascii.eqb c ".") eqn:E.
    + right. split; [done|]. apply Ascii.eqb_eq in E as ->.
      exists "", s. done.
    + by left.
  - right. rewrite Hyes, orb_true_r. split; [done|].
    exists (String c before), after. rewrite Hs. done.
Qed.

(** X9. The backup's file name always comes out, with the timestamp put
    right before the last extension: for a name [stem.ext] (cut at its
    last dot) it is [stem_<timestamp>.ext], and the name itself reads
    [stem.ext]; a name without a dot gets [.csv]. *)
Theorem stamped_file_name_keeps_extension (name timestamp : string) :
  exists stem ext,
    stamped_file_name name timestamp
    = inr (stem +:+ "_" +:+ timestamp +:+ "." +:+ ext) ∧
    str_in "." ext = false ∧
    ((str_in "." name = true ∧ name = stem +:+ "." +:+ ext) ∨
     (str_in "." name = false ∧ stem = name ∧ ext = "csv")).
Proof.
  unfold stamped_file_name.
  destruct (rsplit_dot_spec name)
    as [[Hno ->] | (Hyes & before & after & -> & Hname & Hafter)].
  - exists name, "csv". rewrite Hno. simpl. repeat split; auto.
  - exists before, after. rewrite Hyes. simpl. repeat split; auto.
Qed.

Lemma stamped_file_name_of_any (name timestamp : string) :
  exists file, stamped_file_name name timestamp = inr file.
Proof.
  unfold stamped_file_name.
  destruct (rsplit_dot_spec name)
    as [[Hno ->] | (Hyes & before & after & -> & _)].
  - rewrite Hno. simpl. eauto.
  - rewrite Hyes. simpl. eauto.
Qed.

Lemma split_dot_nonempty (s : string) : split_dot s ≠ [].
Proof.
  induction s as [|c s IH]; simpl; [done|].
  destruct (Ascii.eqb c "."); [done|]. by destruct (split_dot s).
Qed.

Lemma join_dot_cons (piece : string) (pieces : list string) :
  pieces ≠ [] ->
  join "." (piece :: pieces) = piece +:+ "." +:+ join "." pieces.
Proof. by destruct pieces. Qed.

(** [split] loses nothing: joining the pieces with dots gives the string
    back, and no piece has a dot. *)
Lemma split_dot_join (s : string) :
  join "." (split_dot s) = s ∧ Forall (fun piece => str_in "." piece = false) (split_dot s).
Proof.
  induction s as [|c s [IHj IHf]]; [by repeat constructor|].
  simpl. destruct (Ascii.eqb c ".") eqn:E.
  - apply Ascii.eqb_eq in E as ->. split.
    + rewrite join_dot_cons by apply split_dot_nonempty. by rewrite IHj.
    + by constructor.
  - pose proof (split_dot_nonempty s) as Hne.
    destruct (split_dot s) as [|piece pieces]; [done|]. split.
    + destruct pieces as [|p ps].
      * simpl in *. by rewrite IHj.
      * rewrite join_dot_cons in IHj by done.
        rewrite join_dot_cons by done. rewrite string_app_cons. by rewrite IHj.
    + inversion IHf as [|? ? Hpiece Hrest]; subst. constructor; [|done].
      by rewrite str_in_dot_cons, E, Hpiece.
Qed.

(** X10. The volume name is cut at its dots after stripping blanks, and
    the cut loses nothing.  With fewer than three pieces the backup stops
    on the IndexError with the world untouched; otherwise the file goes
    to /Volumes/<first>/<second>/<third>/<file name>, further pieces
    being ignored. *)
Theorem volume_path_needs_three_parts {W} (files_upload : string -> W -> exn + W)
    (name timestamp volume_path : string) (w : World W) :
  let parts := split_dot (strip volume_path) in
  join "." parts = strip volume_path ∧
  ((length parts < 3)%nat ->
     upload_csv_to_volume files_upload name timestamp volume_path w
     = (Raises (Exception "list index out of range"), w)) ∧
  (forall catalog schema volume_name more,
     parts = catalog :: schema :: volume_name :: more ->
     exists file,
       stamped_file_name name timestamp = inr file ∧
       volume_file_path name timestamp volume_path
       = inr ("/Volumes/" +:+ catalog +:+ "/" +:+ schema +:+ "/" +:+ volume_name
              +:+ "/" +:+ file)).
Proof.
  intros parts. subst parts. split; [apply split_dot_join|].
  destruct (stamped_file_name_of_any name timestamp) as [file Hfile].
  split.
  - intros Hshort. unfold upload_csv_to_volume, volume_file_path.
    rewrite Hfile.
    destruct (split_dot (strip volume_path)) as [|a [|b [|c more]]];
      simpl in *; try reflexivity. lia.
  - intros catalog schema volume_name more Hparts. exists file.
    split; [done|]. unfold volume_file_path. by rewrite Hfile, Hparts.
Qed.

Lemma volume_path_needs_three_parts_witness :
  upload_csv_to_volume keep_path "people.csv" "2025-03-01_09-30-00"
    "sandbox.csv_uploads" (fresh [])
  = (Raises (Exception "list index out of range"), fresh []).
Proof.
  destruct (volume_path_needs_three_parts keep_path "people.csv"
              "2025-03-01_09-30-00" "sandbox.csv_uploads" (fresh []))
    as (_ & Hshort & _).
  apply Hshort. vm_compute. lia.
Defined.

(* --------------------------------------------------------------------- *)
(** ** Permission probe *)
(* --------------------------------------------------------------------- *)





(* --------------------------------------------------------------------- *)
(** ** Metadata columns *)
(* --------------------------------------------------------------------- *)

Lemma df_set_column_fresh (df : DataFrame) (col : string) (value : PyVal)
    (dtype : string) :
  col ∉ df_columns df ->
  df_set_column df col value dtype
  = {| df_dtypes := df_dtypes df ++ [(col, dtype)];
       df_rows := map (fun row => row ++ [value]) (df_rows df) |}.
Proof.
  intros Hfresh. unfold df_set_column.
  destruct (list_find _ (df_columns df)) as [[i c]|] eqn:Hfind; [|reflexivity].
  apply list_find_Some in Hfind as (Hi & -> & _).
  destruct Hfresh. by apply list_elem_of_lookup_2 in Hi.
Qed.

Lemma df_set_column_has (df : DataFrame) (col : string) (value : PyVal)
    (dtype : string) :
  (col, dtype) ∈ df_dtypes (df_set_column df col value dtype).
Proof.
  unfold df_set_column.
  destruct (list_find _ (df_columns df)) as [[i c]|] eqn:Hfind; simpl.
  - apply list_find_Some in Hfind as (Hi & _).
    apply list_elem_of_lookup. exists i. apply list_lookup_insert_eq.
    apply lookup_lt_Some in Hi. unfold df_columns in Hi.
    by rewrite length_map in Hi.
  - apply elem_of_app. right. by left.
Qed.

Lemma df_set_column_keeps (df : DataFrame) (col : string) (value : PyVal)
    (dtype : string) (other : string * string) :
  other.1 ≠ col ->
  other ∈ df_dtypes df ->
  other ∈ df_dtypes (df_set_column df col value dtype).
Proof.
  intros Hne Hin. unfold df_set_column.
  destruct (list_find _ (df_columns df)) as [[i c]|] eqn:Hfind; simpl.
  - apply list_find_Some in Hfind as (Hi & -> & _).
    apply list_elem_of_lookup in Hin as [j Hj].
    apply list_elem_of_lookup. exists j. rewrite list_lookup_insert_ne; [done|].
    intros ->. unfold df_columns in Hi.
    rewrite list_lookup_fmap, Hj in Hi. simpl in Hi. congruence.
  - apply elem_of_app. by left.
Qed.

Lemma df_set_column_rows (df : DataFrame) (col : string) (value : PyVal)
    (dtype : string) :
  length (df_rows (df_set_column df col value dtype)) = length (df_rows df).
Proof.
  unfold df_set_column.
  destruct (list_find _ (df_columns df)) as [[i c]|]; simpl; by rewrite length_map.
Qed.

(** X12. Ticking the metadata box keeps the number of rows and leaves
    the dataframe with an upload_timestamp and an uploaded_by column,
    both of dtype object, so both are declared STRING by the CREATE
    statement.  When the CSV has neither name they come last, after the
    CSV's own columns, and every row ends with the timestamp and the
    user. *)
Theorem metadata_columns_are_strings (df : DataFrame) (now current_user : string) :
  let df' := with_metadata df now current_user in
  length (df_rows df') = length (df_rows df) ∧
  "`upload_timestamp` STRING" ∈ columns_def df' ∧
  "`uploaded_by` STRING" ∈ columns_def df' ∧
  ("upload_timestamp" ∉ df_columns df -> "uploaded_by" ∉ df_columns df ->
   df_dtypes df'
   = df_dtypes df ++ [("upload_timestamp", "object"); ("uploaded_by", "object")] ∧
   df_rows df'
   = map (fun row => row ++ [PStr now; PStr current_user]) (df_rows df) ∧
   columns_def df'
   = columns_def df ++ ["`upload_timestamp` STRING"; "`uploaded_by` STRING"]).
Proof.
  intros df'. subst df'. unfold with_metadata.
  split; [by rewrite !df_set_column_rows|]. split; [|split].
  - unfold columns_def.
    apply (list_elem_of_fmap_2 (fun '(col, dtype) => column_def col dtype) _
             ("upload_timestamp", "object")).
    apply df_set_column_keeps; [discriminate|]. apply df_set_column_has.
  - unfold columns_def.
    apply (list_elem_of_fmap_2 (fun '(col, dtype) => column_def col dtype) _
             ("uploaded_by", "object")).
    apply df_set_column_has.
  - intros Hts Hby.
    rewrite (df_set_column_fresh df) by done.
    rewrite df_set_column_fresh.
    + simpl. rewrite <- app_assoc. simpl. repeat split.
      * rewrite map_map. apply map_ext. intros row. by rewrite <- app_assoc.
      * unfold columns_def. simpl. by rewrite map_app.
    + unfold df_columns. simpl. rewrite map_app. simpl.
      intros [Hin | Hin]%elem_of_app; [by apply Hby|].
      apply list_elem_of_singleton in Hin. discriminate.
Qed.

Lemma metadata_columns_are_strings_witness :
  columns_def (with_metadata sample_upload "2025-03-01 09:30:00" "ana@example.com")
  = ["`name` STRING"; "`age` STRING";
     "`upload_timestamp` STRING"; "`uploaded_by` STRING"].
Proof.
  destruct (metadata_columns_are_strings sample_upload
              "2025-03-01 09:30:00" "ana@example.com") as (_ & _ & _ & Hfresh).
  destruct Hfresh as (_ & _ & Hdefs).
  - unfold df_columns. simpl. not_listed.
  - unfold df_columns. simpl. not_listed.
  - exact Hdefs.
Defined.

(* --------------------------------------------------------------------- *)
(** ** Form fields *)
(* --------------------------------------------------------------------- *)

(** With the empty option first, the preselected index is always inside
    the list and lands on the wanted option when there is one, on the
    empty option otherwise. *)
Lemma default_index_spec (options : list string) (rest : list string) (x : string) :
  options = "" :: rest ->
  exists chosen,
    options !! default_index options x = Some chosen ∧
    (x ∈ options -> chosen = x) ∧
    (x ∉ options -> chosen = "").
Proof.
  intros ->. unfold default_index. case_bool_decide as Hin.
  - destruct (list_find _ ("" :: rest)) as [[i y]|] eqn:Hfind.
    + apply list_find_Some in Hfind as (Hi & -> & _).
      exists x. by repeat split.
    + apply list_find_None in Hfind.
      apply list_elem_of_lookup in Hin as [j Hj].
      by destruct (Forall_lookup_1 _ _ _ _ Hfind Hj).
  - exists "". by repeat split.
Qed.

(** X13. For the four review columns the form field is a select box
    whose preselected index is always one of its options: the stored
    value when that is an option, and the empty first option in every
    other case (a missing or NaN cell, or any text that is no option). *)
Theorem select_box_starts_on_stored_option (column_name column_type : string)
    (current_value : PyVal) (key_suffix : string) (disabled : bool) :
  column_name ∈ ["business_reviewed_size_pending"; "business_reviewed_size";
                 "business_reviewed_gender_pending"; "business_reviewed_gender"] ->
  let stored := current_str (shown_value current_value) in
  (exists options index key help chosen,
     render_form_field column_name column_type current_value key_suffix disabled
     = SelectBox column_name options index key help disabled ∧
     (options = BUSINESS_SIZE_OPTIONS ∨ options = GENDER_OPTIONS) ∧
     options !! index = Some chosen ∧
     (stored ∈ options -> chosen = stored) ∧
     (stored ∉ options -> chosen = "")) ∧
  (current_value = PNone ∨ current_value = PNaN -> stored = "") ∧
  (forall s, current_value = PStr s -> stored = s).
Proof.
  intros Hcol stored. subst stored. split; [|split].
  - unfold render_form_field.
    case_bool_decide as Hsize.
    + destruct (default_index_spec BUSINESS_SIZE_OPTIONS _
                  (current_str (shown_value current_value)) eq_refl)
        as (chosen & Hi & Hyes & Hno).
      do 5 eexists. split; [reflexivity|]. eauto.
    + case_bool_decide as Hgender.
      * destruct (default_index_spec GENDER_OPTIONS _
                    (current_str (shown_value current_value)) eq_refl)
          as (chosen & Hi & Hyes & Hno).
        do 5 eexists. split; [reflexivity|]. eauto.
      * exfalso.
        repeat (apply elem_of_cons in Hcol as [-> | Hcol];
                [first [apply Hsize | apply Hgender]; set_solver|]).
        by apply elem_of_nil in Hcol.
  - by intros [-> | ->].
  - intros s ->. unfold shown_value, current_str. simpl. by destruct s.
Qed.

Lemma select_box_starts_on_stored_option_witness :
  preselected (render_form_field "business_reviewed_size" "string"
                 (PStr "small") "checker_edit" false) = Some "".
Proof.
  destruct (select_box_starts_on_stored_option "business_reviewed_size" "string"
              (PStr "small") "checker_edit" false)
    as ((options & index & key & help & chosen & Hfield & Hopts & Hi & _ & Hno)
        & _ & Hstr).
  - apply list_elem_of_further, list_elem_of_here.
  - rewrite Hfield. simpl. rewrite Hi. f_equal. apply Hno.
    rewrite (Hstr "small" eq_refl).
    destruct Hopts as [-> | ->]; not_listed.
Defined.

(* --------------------------------------------------------------------- *)
(** ** Record labels and the maker tab *)
(* --------------------------------------------------------------------- *)

Lemma display_fold (row : Series) (display_cols : list string) :
  fold_left display_step row display_cols
  = display_cols ++ take (3 - length display_cols) (visible_cells row).
Proof.
  revert display_cols. induction row as [|[col val] row IH]; intros acc.
  - change (visible_cells []) with (@nil string).
    simpl. by rewrite take_nil, app_nil_r.
  - cbn [fold_left]. rewrite IH. unfold display_step, visible_cells.
    destruct (negb (isna val) && ne_empty val) eqn:Hvis.
    + rewrite filter_cons_True by done. cbn [map].
      destruct (length acc <? 3)%nat eqn:Hlen; simpl.
      * apply Nat.ltb_lt in Hlen. rewrite length_app. simpl.
        rewrite <- app_assoc. simpl.
        replace (3 - length acc)%nat with (S (3 - (length acc + 1))) by lia.
        reflexivity.
      * apply Nat.ltb_ge in Hlen.
        replace (3 - length acc)%nat with 0%nat by lia. reflexivity.
    + rewrite filter_cons_False by (simpl; by rewrite Hvis). reflexivity.
Qed.

(** X14. The maker's select box has one label per cached row after the
    placeholder; the label of entry k+1 shows the first three cells of
    row k that are neither missing nor empty, and picking that entry
    runs the maker form on that very row. *)
Theorem maker_labels_match_rows {W} (drv : Driver W) (pg : Page)
    (table_data : DataFrame) (k : nat) (selected_record : Series)
    (size_value gender_value : string) (submit_btn : bool) (w : World W) :
  df_iloc table_data k = Some selected_record ->
  length (maker_record_options table_data) = S (length (df_rows table_data)) ∧
  maker_record_options table_data !! S k
  = Some ("Row " +:+ pretty k +:+ ": "
          +:+ join " | " (take 3 (visible_cells selected_record))) ∧
  maker_submit_tab drv pg table_data (S k) size_value gender_value submit_btn w
  = maker_form drv pg selected_record size_value gender_value submit_btn w.
Proof.
  intros Hrow. unfold df_iloc in Hrow.
  destruct (df_rows table_data !! k) as [row|] eqn:Hk; [|discriminate].
  injection Hrow as <-. split; [|split].
  - unfold maker_record_options. simpl. by rewrite length_imap.
  - unfold maker_record_options. simpl.
    rewrite list_lookup_imap, Hk. simpl.
    unfold record_display. by rewrite display_fold.
  - unfold maker_submit_tab.
    rewrite bool_decide_eq_true_2 by (apply lookup_lt_Some in Hk; lia).
    rewrite bool_decide_eq_true_2 by lia.
    replace (S k - 1)%nat with k by lia.
    unfold df_iloc. by rewrite Hk.
Qed.

Lemma maker_labels_match_rows_witness :
  maker_record_options sample_table !! 2%nat
  = Some "Row 1: merchant_id=M-002 | business_reviewed_size_pending=SMALL | business_reviewed_gender_pending=MALE".
Proof.
  destruct (maker_labels_match_rows recording sample_page sample_table 1
              sample_record "SMALL" "MALE" true (fresh []) eq_refl)
    as (_ & Hlabel & _).
  rewrite Hlabel. vm_compute. reflexivity.
Defined.

(* --------------------------------------------------------------------- *)
(** ** Counters of "My Submissions" *)
(* --------------------------------------------------------------------- *)

Lemma status_counts_add_up (status_of : list PyVal -> option PyVal)
    (rows : list (list PyVal)) :
  length (filter (fun row =>
            Exists (fun value => status_of row = Some (PStr value))
              [STATUS_PENDING; STATUS_APPROVED; STATUS_REJECTED]) rows)
  = (length (filter (fun row => status_of row = Some (PStr STATUS_PENDING)) rows)
     + length (filter (fun row => status_of row = Some (PStr STATUS_APPROVED)) rows)
     + length (filter (fun row => status_of row = Some (PStr STATUS_REJECTED)) rows))%nat.
Proof.
  induction rows as [|row rows IH]; [reflexivity|].
  rewrite !filter_cons.
  destruct (decide (status_of row = Some (PStr STATUS_PENDING))) as [Hp|Hp];
  destruct (decide (status_of row = Some (PStr STATUS_APPROVED))) as [Ha|Ha];
  destruct (decide (status_of row = Some (PStr STATUS_REJECTED))) as [Hr|Hr];
  try (rewrite Hp in Ha; discriminate Ha);
  try (rewrite Hp in Hr; discriminate Hr);
  try (rewrite Ha in Hr; discriminate Hr);
  destruct (decide (Exists _ _)) as [He|He]; simpl; rewrite ?IH; try lia.
  - destruct He. by left.
  - destruct He. right. by left.
  - destruct He. right. right. by left.
  - exfalso. repeat (apply Exists_cons in He as [He|He]; [done|]).
    by apply Exists_nil in He.
Qed.

(** X15. On the "My Submissions" tab the rows listed under the default
    status filter are as many as the Pending, Approved and Rejected
    counters together, and never more than Total Submissions: a
    submission with any other status is counted in the total only. *)
Theorem my_submissions_counters_add_up (table_data : DataFrame) (current_user : string)
    (listed total pending approved rejected : nat) :
  my_submissions_counters table_data current_user
  = Some (listed, total, pending, approved, rejected) ->
  listed = (pending + approved + rejected)%nat ∧ (listed <= total)%nat.
Proof.
  unfold my_submissions_counters, count_status, df_where_isin.
  destruct (df_where_eq table_data "reviewed_by_maker" current_user)
    as [mine|]; [|discriminate].
  simpl. unfold df_where_eq.
  case_bool_decide; [|discriminate]. simpl.
  intros [= <- <- <- <- <-].
  rewrite status_counts_add_up. split; [reflexivity|].
  rewrite <- status_counts_add_up. apply length_filter.
Qed.

Lemma my_submissions_counters_add_up_witness :
  my_submissions_counters sample_reviews "maker@example.com"
  = Some (2, 3, 1, 1, 0)%nat ∧ (2 = 1 + 1 + 0)%nat ∧ (2 <= 3)%nat.
Proof.
  split; [vm_compute; reflexivity|].
  apply (my_submissions_counters_add_up sample_reviews "maker@example.com"
           2 3 1 1 0).
  vm_compute. reflexivity.
Defined.

(* --------------------------------------------------------------------- *)
(** ** Session state *)
(* --------------------------------------------------------------------- *)

Lemma session_step_ok (a : Action) (s s' : Session) :
  session_ok s -> session_step a s = Some s' -> session_ok s'.
Proof.
  intros [Hname Hschema] Hstep.
  destruct a as [name | [e | rows e | rows schema] | ]; unfold session_step in Hstep.
  - case_bool_decide; [|by injection Hstep as <-].
    destruct (claims_get name AVAILABLE_TABLES) as [table|] eqn:Hget;
      [|discriminate].
    simpl in Hstep. injection Hstep as <-. by split.
  - injection Hstep as <-. by split.
  - injection Hstep as <-. by split.
  - injection Hstep as <-. by split.
  - injection Hstep as <-. by split.
Qed.

Lemma session_run_ok (actions : list Action) (s s' : Session) :
  session_ok s -> session_run actions s = Some s' -> session_ok s'.
Proof.
  revert s. induction actions as [|a actions IH]; intros s Hok Hrun; simpl in Hrun.
  - by injection Hrun as <-.
  - destruct (session_step a s) as [s1|] eqn:Hstep; [|discriminate].
    apply (IH s1); [|done]. by apply (session_step_ok a s).
Qed.

(** A hidden interface comes back only through a Connect that got both
    the rows and the schema. *)
Lemma hidden_until_connected (more : list Action) (s s' : Session) :
  main_interface_shown s = false ->
  session_run more s = Some s' ->
  main_interface_shown s' = true ->
  exists rows schema, PressConnect (Connected rows schema) ∈ more.
Proof.
  revert s. induction more as [|a more IH]; intros s Hhidden Hrun Hshown.
  - injection Hrun as <-. congruence.
  - simpl in Hrun.
    destruct (session_step a s) as [s1|] eqn:Hstep; [|discriminate].
    assert ((exists rows schema, a = PressConnect (Connected rows schema)) ∨
            (forall rows schema, a ≠ PressConnect (Connected rows schema)))
      as [(rows & schema & ->) | Hother].
    { destruct a as [name | [e | rows e | rows schema] | ]; eauto. }
    { exists rows, schema. by left. }
    assert (main_interface_shown s1 = false) as Hhidden1.
    { destruct a as [name | [e | rows e | rows schema] | ]; unfold session_step in Hstep.
      - case_bool_decide; [|by injection Hstep as <-].
        destruct (claims_get name AVAILABLE_TABLES); [|discriminate].
        simpl in Hstep. by injection Hstep as <-.
      - by injection Hstep as <-.
      - by injection Hstep as <-.
      - by destruct (Hother rows schema).
      - injection Hstep as <-. unfold main_interface_shown. simpl.
        apply andb_false_r. }
    destruct (IH s1 Hhidden1 Hrun Hshown) as (rows & schema & Hin).
    exists rows, schema. by right.
Qed.

(** X16. Whatever the user does from a fresh session (switch tables,
    press Connect with whatever the warehouse answers, refresh or
    submit), the table name in use stays the one listed for the selected
    entry, and the main interface is shown only with both the rows and
    the schema in place.  Switching to another table, a refresh and an
    accepted submission each hide the interface, and it comes back only
    through a Connect that got both the rows and the schema. *)
Theorem session_keeps_table_and_schema (actions : list Action) (s : Session) :
  session_run actions initial_session = Some s ->
  claims_get (selected_table s) AVAILABLE_TABLES = Some (current_table_name s) ∧
  (main_interface_shown s = true ->
   exists rows schema, table_data s = Some rows ∧ session_schema s = Some schema) ∧
  (forall name s', name ≠ selected_table s ->
     session_step (SelectTable name) s = Some s' ->
     main_interface_shown s' = false ∧ table_data s' = None ∧
     session_schema s' = None ∧
     claims_get name AVAILABLE_TABLES = Some (current_table_name s')) ∧
  (forall s', session_step DropTableData s = Some s' ->
     main_interface_shown s' = false ∧
     forall more s'', session_run more s' = Some s'' ->
       main_interface_shown s'' = true ->
       exists rows schema, PressConnect (Connected rows schema) ∈ more).
Proof.
  intros Hrun.
  assert (session_ok s) as [Hname Hschema].
  { apply (session_run_ok actions initial_session); [|done]. by split. }
  split; [done|]. split; [|split].
  - unfold main_interface_shown.
    intros [Hconn Hdata%bool_decide_eq_true]%andb_true_iff.
    destruct (table_data s) as [rows|]; [|done].
    destruct (session_schema s) as [schema|] eqn:Hs; [eauto|].
    by destruct (Hschema Hconn).
  - intros name s' Hne Hstep. unfold session_step in Hstep.
    rewrite bool_decide_eq_true_2 in Hstep by done.
    destruct (claims_get name AVAILABLE_TABLES) as [table|] eqn:Hget;
      [|discriminate].
    simpl in Hstep. injection Hstep as <-. by repeat split.
  - intros s' [= <-].
    assert (main_interface_shown
              {| table_data := None; session_schema := session_schema s;
                 connection_established := connection_established s;
                 selected_table := selected_table s;
                 current_table_name := current_table_name s |} = false) as Hhidden.
    { unfold main_interface_shown. simpl. apply andb_false_r. }
    split; [done|]. intros more s'' Hmore Hshown.
    exact (hidden_until_connected more _ s'' Hhidden Hmore Hshown).
Qed.

Lemma session_keeps_table_and_schema_witness :
  current_table_name
    {| table_data := None; session_schema := None;
       connection_established := false;
       selected_table := "Prod Test - Merchant Business Size";
       current_table_name :=
         "dg_prod.sandbox.out_merchant_business_size_for_bank_test" |}
  = "dg_prod.sandbox.out_merchant_business_size_for_bank_test" ∧
  claims_get "Prod Test - Merchant Business Size" AVAILABLE_TABLES
  = Some "dg_prod.sandbox.out_merchant_business_size_for_bank_test".
Proof.
  split; [reflexivity|].
  apply (session_keeps_table_and_schema
           [PressConnect (Connected sample_table (table_schema sample_page));
            DropTableData;
            SelectTable "Prod Test - Merchant Business Size"]
           {| table_data := None; session_schema := None;
              connection_established := false;
              selected_table := "Prod Test - Merchant Business Size";
              current_table_name :=
                "dg_prod.sandbox.out_merchant_business_size_for_bank_test" |}).
  reflexivity.
Defined.

(* --------------------------------------------------------------------- *)
(** ** Identity and the reviewer columns *)
(* --------------------------------------------------------------------- *)

Lemma str_in_at_nonempty (s : string) : str_in "@" s = true -> s ≠ "".
Proof. by intros H ->. Qed.

Lemma from_workspace_nonempty (me : WorkspaceUser) : from_workspace me ≠ "".
Proof.
  unfold from_workspace.
  destruct (email_shaped (user_name me)) eqn:E1.
  { by apply str_in_at_nonempty, email_shaped_at. }
  destruct (email_shaped (first_email me)) eqn:E2.
  { by apply str_in_at_nonempty, email_shaped_at. }
  destruct (email_shaped (display_name me)) eqn:E3.
  { by apply str_in_at_nonempty, email_shaped_at. }
  destruct (id me) as [i|]; [|done].
  destruct (String.eqb i "") eqn:Ei; simpl; [done|].
  by apply String.eqb_neq in Ei.
Qed.

Lemma get_current_user_email_nonempty (src : IdentitySources) :
  get_current_user_email src ≠ "".
Proof.
  unfold get_current_user_email, identity_body.
  destruct (from_sql src) as [s|] eqn:Hsql.
  { by apply str_in_at_nonempty, (from_sql_at src). }
  destruct (from_streamlit src) as [s|] eqn:Hst.
  { by apply str_in_at_nonempty, (from_streamlit_at src). }
  destruct (workspace_me src) as [e|me]; [done|].
  apply from_workspace_nonempty.
Qed.

(** X17. The resolved identity is never the empty string, whatever the
    sources answer; so on a page whose current user is that identity the
    maker's and the checker's statements always carry the reviewer as a
    quoted text, never as NULL. *)
Theorem reviewer_is_never_null (src : IdentitySources) (pg : Page)
    (size_value gender_value checker_comments : string) :
  current_user pg = get_current_user_email src ->
  get_current_user_email src ≠ "" ∧
  set_clauses (maker_update_data pg size_value gender_value) !! 3%nat
  = Some ("reviewed_by_maker = '"
          +:+ replace_quote (get_current_user_email src) +:+ "'") ∧
  set_clauses (approve_update_data pg size_value gender_value checker_comments)
    !! 3%nat
  = Some ("reviewed_by_checker = '"
          +:+ replace_quote (get_current_user_email src) +:+ "'") ∧
  set_clauses (reject_update_data pg checker_comments) !! 1%nat
  = Some ("reviewed_by_checker = '"
          +:+ replace_quote (get_current_user_email src) +:+ "'").
Proof.
  intros Huser.
  pose proof (get_current_user_email_nonempty src) as Hne.
  split; [done|].
  unfold maker_update_data, approve_update_data, reject_update_data,
    set_clauses. simpl. rewrite Huser.
  unfold set_clause_of. simpl.
  destruct (get_current_user_email src); [done|]. done.
Qed.

Lemma reviewer_is_never_null_witness :
  set_clauses (maker_update_data
                 {| TABLE_NAME := "t"; table_schema := [];
                    current_user := "7340219"; manila_timestamp := "" |}
                 "SMALL" "MALE") !! 3%nat
  = Some "reviewed_by_maker = '7340219'".
Proof.
  destruct (reviewer_is_never_null bare_id_sources
              {| TABLE_NAME := "t"; table_schema := [];
                 current_user := "7340219"; manila_timestamp := "" |}
              "SMALL" "MALE" "" eq_refl) as (_ & Hmaker & _).
  exact Hmaker.
Defined.
